(** * ZV.0 code analysis agent: shallow embedding of [zv0_agent.py]

    The development follows the Python file top to bottom.

    - Python [int] is [Z]; [len] returns a [Z].
    - Python [str] is [string]; a character stands for the code point of the
      same number, so the texts covered are those over code points 0..255.
    - [comment_ratio] is the exact quotient in [Q]; Python rounds that
      quotient to the nearest double, which is zero exactly when the
      quotient is.
    - A raised exception is the [Raise] branch of [result]; only [str(e)] is
      ever read from an exception, so [Raise] carries that string.
    - [ast.parse] and [str.capitalize] belong to the Python runtime, not to
      the analysed file: they are Section variables. *)

From Stdlib Require Import List String Ascii ZArith QArith Lia Bool.
From Stdlib Require Import Permutation Sorted DecimalString.
Import ListNotations.

#[local] Open Scope string_scope.
#[local] Open Scope list_scope.
#[local] Open Scope Z_scope.

(** ** Exceptions *)

Inductive result (A : Type) : Type :=
| Ok (a : A)
| Raise (e : string).

Arguments Ok {A} a.
Arguments Raise {A} e.

Definition bind {A B : Type} (c : result A) (k : A -> result B) : result B :=
  match c with
  | Ok a => k a
  | Raise e => Raise e
  end.

Notation "x <- c ;; k" := (bind c (fun x => k))
  (at level 100, c at next level, right associativity).

(** ** The Python built-ins the file uses *)

Module py.

Definition len {A : Type} (l : list A) : Z := Z.of_nat (List.length l).

(** [str(n)] for an [int]. *)
Definition str (n : Z) : string := NilZero.string_of_int (Z.to_int n).

(** [a / b] on two ints: true division, [ZeroDivisionError] when [b] is 0. *)
Definition truediv (a b : Z) : result Q :=
  if b =? 0 then Raise "division by zero"
  else Ok (Qdiv (inject_Z a) (inject_Z b)).

(** [c.isspace()] on code points up to 255. *)
Definition isspace (c : ascii) : bool :=
  let n := N_of_ascii c in
  (((9 <=? n) && (n <=? 13)) || ((28 <=? n) && (n <=? 32))
   || (n =? 133) || (n =? 160))%N.

(** [s.split(sep)] for a one-character separator. *)
Fixpoint split (sep : ascii) (s : string) : list string :=
  match s with
  | EmptyString => [EmptyString]
  | String c rest =>
      if Ascii.eqb c sep then EmptyString :: split sep rest
      else match split sep rest with
           | cur :: more => String c cur :: more
           | [] => [String c EmptyString]
           end
  end.

Fixpoint lstrip (s : string) : string :=
  match s with
  | EmptyString => EmptyString
  | String c rest => if isspace c then lstrip rest else s
  end.

Fixpoint rstrip (s : string) : string :=
  match s with
  | EmptyString => EmptyString
  | String c rest =>
      match rstrip rest with
      | EmptyString => if isspace c then EmptyString else String c EmptyString
      | kept => String c kept
      end
  end.

(** [s.strip()] *)
Definition strip (s : string) : string := rstrip (lstrip s).

(** Truth value of a [str]: non-empty. *)
Definition truthy (s : string) : bool :=
  match s with
  | EmptyString => false
  | String _ _ => true
  end.

(** [s.startswith(p)] *)
Definition startswith (s p : string) : bool := String.prefix p s.

(** [x in l] for a list of strings. *)
Definition contains (l : list string) (x : string) : bool :=
  existsb (String.eqb x) l.

(** [str.capitalize] on ASCII letters, the instance used to run examples. *)
Definition upper (c : ascii) : ascii :=
  let n := N_of_ascii c in
  if ((97 <=? n) && (n <=? 122))%N then ascii_of_N (n - 32) else c.

Definition lower (c : ascii) : ascii :=
  let n := N_of_ascii c in
  if ((65 <=? n) && (n <=? 90))%N then ascii_of_N (n + 32) else c.

Fixpoint map_chars (f : ascii -> ascii) (s : string) : string :=
  match s with
  | EmptyString => EmptyString
  | String c rest => String (f c) (map_chars f rest)
  end.

Definition ascii_capitalize (s : string) : string :=
  match s with
  | EmptyString => EmptyString
  | String c rest => String (upper c) (map_chars lower rest)
  end.

End py.

Arguments py.contains : simpl never.
Arguments py.str : simpl never.

(** ** Syntax trees: the part of Python's [ast] module the analyser reads *)

Module ast.

(** One constructor per node class the analyser tests with [isinstance];
    every other class is [Other], tagged with its Python class name.
    [lineno] is kept where the analyser reads it or where the class always
    has one. *)
#[warnings="-register-all"] Inductive AST : Type :=
| Call (lineno : Z) (func : AST) (args : list AST)
| Name (lineno : Z) (id : string) (ctx : AST)
| If (lineno : Z) (fields : list AST)
| For (lineno : Z) (fields : list AST)
| While (lineno : Z) (fields : list AST)
| FunctionDef (lineno : Z) (fields : list AST)
| ClassDef (lineno : Z) (fields : list AST)
| And
| Or
| Other (class_name : string) (fields : list AST).

(** [ast.iter_child_nodes]: the direct children, in field order. *)
Definition iter_child_nodes (node : AST) : list AST :=
  match node with
  | Call _ func args => func :: args
  | Name _ _ ctx => [ctx]
  | If _ fields | For _ fields | While _ fields
  | FunctionDef _ fields | ClassDef _ fields | Other _ fields => fields
  | And | Or => []
  end.

Fixpoint size (node : AST) : nat :=
  S (match node with
     | Call _ func args => size func + list_sum (map size args)
     | Name _ _ ctx => size ctx
     | If _ fields | For _ fields | While _ fields
     | FunctionDef _ fields | ClassDef _ fields | Other _ fields =>
         list_sum (map size fields)
     | And | Or => 0
     end).

Definition forest_size (todo : list AST) : nat := list_sum (map size todo).

(** The loop of [ast.walk]:
    [todo = deque([node]); while todo: node = todo.popleft();
     todo.extend(iter_child_nodes(node)); yield node].
    [fuel] bounds the number of iterations. *)
Fixpoint walk_loop (fuel : nat) (todo : list AST) : list AST :=
  match fuel, todo with
  | S fuel', node :: todo' =>
      node :: walk_loop fuel' (todo' ++ iter_child_nodes node)
  | _, _ => []
  end.

(** [ast.walk(node)], as the list of the nodes it yields. Each iteration
    takes one node off the queue, so [size node] iterations empty it
    (lemma [walk_loop_step] below). *)
Definition walk (node : AST) : list AST := walk_loop (size node) [node].

Definition is_loop (node : AST) : bool :=
  match node with
  | For _ _ | While _ _ => true
  | _ => false
  end.

Definition is_FunctionDef (node : AST) : bool :=
  match node with
  | FunctionDef _ _ => true
  | _ => false
  end.

Definition is_ClassDef (node : AST) : bool :=
  match node with
  | ClassDef _ _ => true
  | _ => false
  end.

(** [isinstance(node, (ast.If, ast.For, ast.While, ast.And, ast.Or))] *)
Definition is_decision (node : AST) : bool :=
  match node with
  | If _ _ | For _ _ | While _ _ | And | Or => true
  | _ => false
  end.

(** [node.lineno] for the classes above that carry one. *)
Definition lineno (node : AST) : Z :=
  match node with
  | Call l _ _ | Name l _ _ | If l _ | For l _ | While l _
  | FunctionDef l _ | ClassDef l _ => l
  | And | Or | Other _ _ => 0
  end.

(** [node] occurs in [root]: it is [root] or occurs in one of its children. *)
Inductive occurs_in (node : AST) : AST -> Prop :=
| occurs_here : occurs_in node node
| occurs_below (child root : AST) :
    In child (iter_child_nodes root) -> occurs_in node child ->
    occurs_in node root.

End ast.

(** ** The data model: lines 19-49 *)

Record CodeIssue : Type := mkCodeIssue
  { severity : string;
    line_number : Z;
    message : string;
    category : string }.

(** [category] defaults to ["general"] in [CodeIssue.__init__]. *)
Definition CodeIssue_default (severity : string) (line_number : Z)
    (message : string) : CodeIssue :=
  mkCodeIssue severity line_number message "general".

Record ComplexityMetrics : Type := mkComplexityMetrics
  { cyclomatic_complexity : Z;
    lines_of_code : Z;
    comment_ratio : Q;
    function_count : Z;
    class_count : Z }.

Record AnalysisReport : Type := mkAnalysisReport
  { overall_score : Z;
    security_score : Z;
    maintainability_score : Z;
    performance_score : Z;
    complexity_metrics : ComplexityMetrics;
    issues : list CodeIssue;
    suggestions : list string }.

(** ** [class CodeAnalyzer]: lines 107-234 *)

Module CodeAnalyzer.

Import ast.

(** The [scores] dict of [_calculate_scores]: its four keys are fixed by the
    literal that creates it and no key is ever added or removed, so it is a
    record with one field per key. *)
Record Scores : Type := mkScores
  { overall : Z;
    security : Z;
    maintainability : Z;
    performance : Z }.

(** *** [_calculate_metrics], lines 131-151 *)

Definition count_complexity (complexity : Z) (node : AST) : Z :=
  if is_decision node then complexity + 1 else complexity.

Definition _calculate_metrics (tree : AST) (code : string)
    : result ComplexityMetrics :=
  let lines := py.split "010" code in
  let loc := py.len (filter (fun line => py.truthy (py.strip line)) lines) in
  let comment_lines :=
    py.len (filter (fun line => py.startswith (py.strip line) "#") lines) in
  let complexity := fold_left count_complexity (walk tree) 1 in
  let function_count := py.len (filter is_FunctionDef (walk tree)) in
  let class_count := py.len (filter is_ClassDef (walk tree)) in
  ratio <- (if loc >? 0 then py.truediv comment_lines loc else Ok 0%Q) ;;
  Ok (mkComplexityMetrics complexity loc ratio function_count class_count).

(** *** [_analyze_code], lines 153-185 *)

(** Body of the first loop (security checks), with [issues.append]. *)
Definition security_step (issues : list CodeIssue) (node : AST)
    : list CodeIssue :=
  match node with
  | Call lineno (Name _ func_name _) _ =>
      if py.contains ["eval"; "exec"; "open"] func_name
      then issues ++
           [mkCodeIssue "high" lineno
              ("Potentially dangerous function: " ++ func_name)%string
              "security"]
      else issues
  | _ => issues
  end.

(** Body of the second loop (complexity checks); the state is
    [(loop_depth, issues)]. *)
Definition complexity_step (state : Z * list CodeIssue) (node : AST)
    : Z * list CodeIssue :=
  let '(loop_depth, issues) := state in
  match node with
  | For lineno _ | While lineno _ =>
      let loop_depth := loop_depth + 1 in
      if loop_depth >? 2
      then (loop_depth,
            issues ++
            [mkCodeIssue "medium" lineno
               ("Deeply nested loops (depth " ++ py.str loop_depth ++ ")")%string
               "performance"])
      else (loop_depth, issues)
  | FunctionDef _ _ => (0, issues)
  | _ => (loop_depth, issues)
  end.

Definition _analyze_code (tree : AST) : list CodeIssue :=
  let issues := [] in
  let issues := fold_left security_step (walk tree) issues in
  let loop_depth := 0 in
  let '(_, issues) := fold_left complexity_step (walk tree) (loop_depth, issues) in
  issues.

(** What each of the two loops contributes, started on an empty list. *)
Definition security_issues (nodes : list AST) : list CodeIssue :=
  fold_left security_step nodes [].

Definition complexity_issues (nodes : list AST) : list CodeIssue :=
  snd (fold_left complexity_step nodes (0, [])).

(** The value of [loop_depth] once the second loop has gone through
    [visited]. *)
Definition loop_depth_after (visited : list AST) : Z :=
  fst (fold_left complexity_step visited (0, [])).

(** The test of the first loop: a call whose [func] is a [Name] with an
    [id] in the list. *)
Definition is_dangerous_call (node : AST) : bool :=
  match node with
  | Call _ (Name _ func_name _) _ =>
      py.contains ["eval"; "exec"; "open"] func_name
  | _ => false
  end.

(** The nodes whose [lineno] the two loops can report. *)
Definition is_reportable (node : AST) : bool :=
  match node with
  | Call _ _ _ | For _ _ | While _ _ => true
  | _ => false
  end.

Definition in_category (name : string) (issue : CodeIssue) : bool :=
  (category issue =? name)%string.

(** *** [_calculate_scores], lines 187-218 *)

Definition deduction_of (issue : CodeIssue) : Z :=
  if (severity issue =? "high")%string then 5
  else if (severity issue =? "medium")%string then 3
  else 1.

(** Body of the loop over [issues]. *)
Definition score_step (scores : Scores) (issue : CodeIssue) : Scores :=
  let deduction := deduction_of issue in
  let scores :=
    if (category issue =? "security")%string
    then mkScores (overall scores) (security scores - deduction)
                  (maintainability scores) (performance scores)
    else if (category issue =? "performance")%string
    then mkScores (overall scores) (security scores)
                  (maintainability scores) (performance scores - deduction)
    else scores in
  mkScores (overall scores - deduction) (security scores)
           (maintainability scores) (performance scores).

(** [for key in scores: scores[key] = max(0, scores[key])] *)
Definition clamp (scores : Scores) : Scores :=
  mkScores (Z.max 0 (overall scores)) (Z.max 0 (security scores))
           (Z.max 0 (maintainability scores)) (Z.max 0 (performance scores)).

Definition _calculate_scores (issues : list CodeIssue)
    (metrics : ComplexityMetrics) : Scores :=
  let scores := mkScores 100 100 100 100 in
  let scores := fold_left score_step issues scores in
  let scores :=
    if cyclomatic_complexity metrics >? 10
    then mkScores (overall scores - 5) (security scores)
                  (maintainability scores - 10) (performance scores)
    else scores in
  clamp scores.

(** *** [_error_report], lines 224-234 *)

Definition _error_report (error : string) : AnalysisReport :=
  mkAnalysisReport 0 0 0 0
    (mkComplexityMetrics 0 0 0%Q 0 0)
    [CodeIssue_default "high" 0 ("Analysis error: " ++ error)%string]
    ["Check your input code"].

Section Runtime.

(** [ast.parse(code)]: the tree, or the exception it raises. *)
Variable ast_parse : string -> result AST.

(** [s.capitalize()] *)
Variable capitalize : string -> string.

(** *** [_generate_suggestions], lines 220-222 *)

Definition _generate_suggestions (issues : list CodeIssue) : list string :=
  map (fun issue =>
         (capitalize (category issue) ++ ": " ++ message issue)%string)
      issues.

(** *** [analyze_code], lines 110-129

    The body of the [try] runs in [result]; [except Exception as e]
    turns a raised [e] into [_error_report(str(e))]. *)

Definition analyze_code (code language file_path : string)
    : AnalysisReport :=
  let attempt :=
    tree <- ast_parse code ;;
    metrics <- _calculate_metrics tree code ;;
    let issues := _analyze_code tree in
    let scores := _calculate_scores issues metrics in
    Ok (mkAnalysisReport (overall scores) (security scores)
          (maintainability scores) (performance scores)
          metrics issues (_generate_suggestions issues)) in
  match attempt with
  | Ok report => report
  | Raise e => _error_report e
  end.

End Runtime.

End CodeAnalyzer.

(** ** [class ZV0Agent]: lines 51-105 *)

Module ZV0Agent.

(** What [yaml.safe_load] can return, as far as a configuration goes. *)
#[warnings="-register-all"] Inductive yaml : Type :=
| YNone
| YBool (b : bool)
| YInt (n : Z)
| YStr (s : string)
| YList (items : list yaml)
| YDict (entries : list (string * yaml)).

(** Truth value, for [yaml.safe_load(f) or {}]. *)
Definition yaml_truthy (v : yaml) : bool :=
  match v with
  | YNone => false
  | YBool b => b
  | YInt n => negb (n =? 0)
  | YStr s => py.truthy s
  | YList items => negb (py.len items =? 0)
  | YDict entries => negb (py.len entries =? 0)
  end.

Definition _default_config : yaml :=
  YDict [("agent", YDict [("name", YStr "ZV.0"); ("version", YStr "1.0.0")]);
         ("analysis", YDict [("security_checks", YBool true);
                             ("performance_checks", YBool true)])].

(** The agent's fields; [self.analyzer = CodeAnalyzer()] has no state. *)
Record agent : Type := mkAgent { config : yaml }.

(** The dict [analyze_file] returns:
    [{"success": True, "data": {"overall_score", "issues", "suggestions"}}]
    or [{"success": False, "error": ...}]. *)
Inductive response : Type :=
| Success (overall_score : Z) (issues : Z) (suggestions : list string)
| Failure (error : string).

Section Runtime.

Variable ast_parse : string -> result ast.AST.
Variable capitalize : string -> string.

(** [open(path, 'r').read()] *)
Variable read_file : string -> result string.

(** [yaml.safe_load(open(path, 'r'))] *)
Variable load_yaml : string -> result yaml.

Definition _load_config (config_path : option string) : yaml :=
  match config_path with
  | None => _default_config
  | Some path =>
      if negb (py.truthy path) then _default_config
      else match load_yaml path with
           | Ok loaded => if yaml_truthy loaded then loaded else YDict []
           | Raise _ => _default_config
           end
  end.

Definition __init__ (config_path : option string) : agent :=
  mkAgent (_load_config config_path).

Definition analyze_file (self : agent) (file_path language : string)
    : response :=
  let attempt :=
    code <- read_file file_path ;;
    let report :=
      CodeAnalyzer.analyze_code ast_parse capitalize code language file_path in
    Ok (Success (overall_score report) (py.len (issues report))
                (suggestions report)) in
  match attempt with
  | Ok answer => answer
  | Raise e => Failure e
  end.

End Runtime.

End ZV0Agent.

(** ** Sample texts with the trees [ast.parse] builds for them *)

Module Samples.

Import ast.

Definition nl : string := String "010" EmptyString.

Definition Load : AST := Other "Load" [].
Definition Store : AST := Other "Store" [].
Definition Pass : AST := Other "Pass" [].

(** Two empty lines, then a bare call of [eval] on line 3. *)
Definition eval_text : string := (nl ++ nl ++ "eval(s)" ++ nl)%string.

Definition eval_tree : AST :=
  Other "Module"
    [Other "Expr" [Call 3 (Name 3 "eval" Load) [Name 3 "s" Load]]].

(** A function whose body is three nested [for] loops, lines 1 to 5. *)
Definition nest_text : string :=
  ("def f(m):" ++ nl ++
   "    for a in m:" ++ nl ++
   "        for b in a:" ++ nl ++
   "            for c in b:" ++ nl ++
   "                pass" ++ nl)%string.

Definition nest_inner : AST := For 4 [Name 4 "c" Store; Name 4 "b" Load; Pass].

Definition nest_middle : AST :=
  For 3 [Name 3 "b" Store; Name 3 "a" Load; nest_inner].

Definition nest_outer : AST :=
  For 2 [Name 2 "a" Store; Name 2 "m" Load; nest_middle].

Definition nest_def : AST :=
  FunctionDef 1 [Other "arguments" [Other "arg" []]; nest_outer].

Definition nest_tree : AST := Other "Module" [nest_def].

(** The same function followed by one more loop at top level, line 6. *)
Definition nest_then_loop_text : string :=
  (nest_text ++ "while m: pass" ++ nl)%string.

Definition nest_then_loop_tree : AST :=
  Other "Module" [nest_def; While 6 [Name 6 "m" Load; Pass]].

(** Three loops one after another, then a call of [eval] on line 4. *)
Definition loops_then_eval_text : string :=
  ("while x: pass" ++ nl ++ "while x: pass" ++ nl ++
   "while x: pass" ++ nl ++ "eval(s)" ++ nl)%string.

Definition loops_then_eval_tree : AST :=
  Other "Module"
    [While 1 [Name 1 "x" Load; Pass];
     While 2 [Name 2 "x" Load; Pass];
     While 3 [Name 3 "x" Load; Pass];
     Other "Expr" [Call 4 (Name 4 "eval" Load) [Name 4 "s" Load]]].

(** The call of [eval] on line 3 followed by ten [if] statements, lines 4
    to 13. *)
Definition if_line : string := ("if s: pass" ++ nl)%string.

Definition eval_then_ifs_text : string :=
  (eval_text ++ if_line ++ if_line ++ if_line ++ if_line ++ if_line
   ++ if_line ++ if_line ++ if_line ++ if_line ++ if_line)%string.

Definition if_at (line : Z) : AST := If line [Name line "s" Load; Pass].

Definition eval_then_ifs_tree : AST :=
  Other "Module"
    (Other "Expr" [Call 3 (Name 3 "eval" Load) [Name 3 "s" Load]]
     :: map if_at [4; 5; 6; 7; 8; 9; 10; 11; 12; 13]).

(** One assignment, no comment. *)
Definition assign_text : string := ("x = 1" ++ nl)%string.

Definition assign_tree : AST :=
  Other "Module" [Other "Assign" [Name 1 "x" Store; Other "Constant" []]].

(** The empty text. *)
Definition empty_tree : AST := Other "Module" [].

(** [ast.parse] on the texts above; any other text is answered with the
    [SyntaxError] that ["def ("] raises. *)
Definition parse (code : string) : result AST :=
  if (code =? eval_text)%string then Ok eval_tree
  else if (code =? nest_text)%string then Ok nest_tree
  else if (code =? nest_then_loop_text)%string then Ok nest_then_loop_tree
  else if (code =? loops_then_eval_text)%string then Ok loops_then_eval_tree
  else if (code =? eval_then_ifs_text)%string then Ok eval_then_ifs_tree
  else if (code =? assign_text)%string then Ok assign_tree
  else if (code =? "")%string then Ok empty_tree
  else Raise "invalid syntax (<unknown>, line 1)".

(** A file system with one file per sample text. *)
Definition read_file (path : string) : result string :=
  if (path =? "eval.py")%string then Ok eval_text
  else if (path =? "nest.py")%string then Ok nest_text
  else Raise "[Errno 2] No such file or directory".

(** A configuration that switches both checks off. *)
Definition checks_off : ZV0Agent.yaml :=
  ZV0Agent.YDict
    [("analysis", ZV0Agent.YDict [("security_checks", ZV0Agent.YBool false);
                                  ("performance_checks", ZV0Agent.YBool false)])].

End Samples.

(** ** More sample inputs: files, configurations, small texts *)

Module MoreSamples.

(** A file system with a readable Python file, a file [ast.parse] rejects,
    and nothing else. *)
Definition read_file (path : string) : result string :=
  if (path =? "eval.py")%string then Ok Samples.eval_text
  else if (path =? "broken.py")%string then Ok "def ("
  else Raise "[Errno 2] No such file or directory".

(** [yaml.safe_load] on three files: one that sets both checks off, an empty
    one (loads to [None]), and one that is not valid YAML. *)
Definition load_yaml (path : string) : result ZV0Agent.yaml :=
  if (path =? "off.yaml")%string then Ok Samples.checks_off
  else if (path =? "empty.yaml")%string then Ok ZV0Agent.YNone
  else Raise "mapping values are not allowed here".

(** A text of blanks, a tab and line ends only. *)
Definition blank_text : string :=
  ("  " ++ Samples.nl ++ String "009" EmptyString ++ Samples.nl)%string.


(** Straight-line code with a call inside a call:
    [f(eval(a))] on line 1, [eval(b)] on line 2. *)
Definition nested_call_text : string :=
  ("f(eval(a))" ++ Samples.nl ++ "eval(b)" ++ Samples.nl)%string.

Definition nested_call_tree : ast.AST :=
  ast.Other "Module"
    [ast.Other "Expr"
       [ast.Call 1 (ast.Name 1 "f" Samples.Load)
          [ast.Call 1 (ast.Name 1 "eval" Samples.Load)
             [ast.Name 1 "a" Samples.Load]]];
     ast.Other "Expr"
       [ast.Call 2 (ast.Name 2 "eval" Samples.Load)
          [ast.Name 2 "b" Samples.Load]]].

(** Four loops on lines 1 to 4, then [eval(s)] on line 5 and [exec(s)] on
    line 6. *)
Definition loops_then_calls_text : string :=
  ("while x: pass" ++ Samples.nl ++ "while x: pass" ++ Samples.nl ++
   "while x: pass" ++ Samples.nl ++ "while x: pass" ++ Samples.nl ++
   "eval(s)" ++ Samples.nl ++ "exec(s)" ++ Samples.nl)%string.

Definition while_at (line : Z) : ast.AST :=
  ast.While line [ast.Name line "x" Samples.Load; Samples.Pass].

Definition loops_then_calls_tree : ast.AST :=
  ast.Other "Module"
    [while_at 1; while_at 2; while_at 3; while_at 4;
     ast.Other "Expr"
       [ast.Call 5 (ast.Name 5 "eval" Samples.Load)
          [ast.Name 5 "s" Samples.Load]];
     ast.Other "Expr"
       [ast.Call 6 (ast.Name 6 "exec" Samples.Load)
          [ast.Name 6 "s" Samples.Load]]].

End MoreSamples.

(** ** Vocabulary of the statements *)

Definition sumZ (l : list Z) : Z := fold_right Z.add 0 l.

Fixpoint nondecreasing (l : list Z) : bool :=
  match l with
  | a :: (b :: _) as rest => (a <=? b) && nondecreasing rest
  | _ => true
  end.

(** [subseq l1 l2]: [l1] is [l2] with some elements left out, order kept. *)
Inductive subseq {A : Type} : list A -> list A -> Prop :=
| subseq_nil : subseq [] []
| subseq_skip (x : A) (l1 l2 : list A) : subseq l1 l2 -> subseq l1 (x :: l2)
| subseq_keep (x : A) (l1 l2 : list A) :
    subseq l1 l2 -> subseq (x :: l1) (x :: l2).

(** [all_space s]: every character of [s] is whitespace for [str.isspace]. *)
Fixpoint all_space (s : string) : bool :=
  match s with
  | EmptyString => true
  | String c rest => py.isspace c && all_space rest
  end.

(** * Facts *)

(** ** [ast.walk] visits every node once the queue is given enough fuel *)

Section Walk.

Import ast.

Lemma size_children (node : AST) :
  size node = S (forest_size (iter_child_nodes node)).
Proof.
  destruct node; unfold forest_size; simpl; try reflexivity.
  now rewrite Nat.add_0_r.
Qed.

Lemma forest_size_app (l1 l2 : list AST) :
  forest_size (l1 ++ l2) = (forest_size l1 + forest_size l2)%nat.
Proof.
  unfold forest_size. now rewrite map_app, list_sum_app.
Qed.

Lemma forest_size_step (node : AST) (todo : list AST) :
  forest_size (node :: todo) = S (forest_size (todo ++ iter_child_nodes node)).
Proof.
  rewrite forest_size_app. unfold forest_size at 1. simpl.
  rewrite size_children. fold (forest_size todo). lia.
Qed.

(** With enough fuel the loop runs until the queue is empty: more fuel
    changes nothing. *)
Lemma walk_loop_fuel (f1 f2 : nat) (todo : list AST) :
  (forest_size todo <= f1)%nat -> (forest_size todo <= f2)%nat ->
  walk_loop f1 todo = walk_loop f2 todo.
Proof.
  revert f2 todo.
  induction f1 as [|f1 IH]; intros f2 [|node todo] H1 H2;
    try (destruct f2; reflexivity).
  - rewrite forest_size_step in H1. lia.
  - destruct f2 as [|f2]; [rewrite forest_size_step in H2; lia|].
    simpl. f_equal. rewrite forest_size_step in H1, H2. apply IH; lia.
Qed.

(** One iteration of the [while todo] loop. *)
Lemma walk_loop_step (fuel : nat) (node : AST) (todo : list AST) :
  (forest_size (node :: todo) <= fuel)%nat ->
  walk_loop fuel (node :: todo)
  = node :: walk_loop (forest_size (todo ++ iter_child_nodes node))
                      (todo ++ iter_child_nodes node).
Proof.
  intros H. destruct fuel as [|fuel]; [rewrite forest_size_step in H; lia|].
  simpl. f_equal. rewrite forest_size_step in H.
  apply walk_loop_fuel; lia.
Qed.

Lemma occurs_in_inv (node root : AST) :
  occurs_in node root <->
  node = root \/ Exists (occurs_in node) (iter_child_nodes root).
Proof.
  split.
  - intros H. destruct H as [|child root Hc Hn]; [now left|].
    right. apply Exists_exists. now exists child.
  - intros [->|H]; [constructor|].
    apply Exists_exists in H as (child & Hc & Hn).
    now apply occurs_below with child.
Qed.

Lemma walk_loop_In (node : AST) (fuel : nat) (todo : list AST) :
  (forest_size todo <= fuel)%nat ->
  In node (walk_loop fuel todo) <-> Exists (occurs_in node) todo.
Proof.
  revert todo. induction fuel as [|fuel IH]; intros [|root todo] H.
  - simpl. split; [tauto | intros E; inversion E].
  - rewrite forest_size_step in H. lia.
  - simpl. split; [tauto | intros E; inversion E].
  - rewrite forest_size_step in H. simpl.
    rewrite IH by lia. rewrite Exists_app, Exists_cons, occurs_in_inv.
    split; intros; intuition (subst; auto).
Qed.

Lemma walk_In (node root : AST) :
  In node (walk root) <-> occurs_in node root.
Proof.
  unfold walk. rewrite walk_loop_In.
  - rewrite Exists_cons, Exists_nil. tauto.
  - unfold forest_size. simpl. lia.
Qed.

End Walk.

(** ** The two loops of [_analyze_code] *)

Section Detector.

Import ast CodeAnalyzer.

(** The issue the first loop appends for a call of [func_name] at [lineno]. *)
Let danger (lineno : Z) (func_name : string) : CodeIssue :=
  mkCodeIssue "high" lineno
    ("Potentially dangerous function: " ++ func_name)%string "security".

(** The issue the second loop appends for a loop at [lineno] met at [depth]. *)
Let nested (lineno depth : Z) : CodeIssue :=
  mkCodeIssue "medium" lineno
    ("Deeply nested loops (depth " ++ py.str depth ++ ")")%string
    "performance".

Lemma security_step_app (acc : list CodeIssue) (node : AST) :
  security_step acc node = acc ++ security_step [] node.
Proof.
  unfold security_step.
  destruct node as [l func args| | | | | | | | |]; try now rewrite app_nil_r.
  destruct func; try now rewrite app_nil_r.
  destruct (py.contains _ _); [reflexivity | now rewrite app_nil_r].
Qed.

Lemma security_fold (nodes : list AST) (acc : list CodeIssue) :
  fold_left security_step nodes acc
  = acc ++ flat_map (security_step []) nodes.
Proof.
  revert acc. induction nodes as [|node nodes IH]; intros acc; simpl.
  - now rewrite app_nil_r.
  - rewrite IH, (security_step_app acc), app_assoc. reflexivity.
Qed.

Lemma security_issues_flat_map (nodes : list AST) :
  security_issues nodes = flat_map (security_step []) nodes.
Proof. unfold security_issues. now rewrite security_fold. Qed.

Lemma security_step_dangerous (node : AST) :
  security_step [] node
  = if is_dangerous_call node
    then match node with
         | Call l (Name _ id _) _ => [danger l id]
         | _ => []
         end
    else [].
Proof.
  destruct node as [l func args| | | | | | | | |]; try reflexivity.
  destruct func; reflexivity.
Qed.

Lemma security_step_In (issue : CodeIssue) (node : AST) :
  In issue (security_step [] node) <->
  exists l l' id ctx args,
    node = Call l (Name l' id ctx) args /\
    py.contains ["eval"; "exec"; "open"] id = true /\
    issue = danger l id.
Proof.
  split.
  - destruct node as [l func args| | | | | | | | |]; try contradiction.
    destruct func as [|l' id ctx| | | | | | | |]; try contradiction.
    simpl. destruct (py.contains _ _) eqn:E; [|contradiction].
    intros [<-|[]]. now exists l, l', id, ctx, args.
  - intros (l & l' & id & ctx & args & -> & E & ->).
    simpl. rewrite E. now left.
Qed.

Lemma security_issues_In (issue : CodeIssue) (nodes : list AST) :
  In issue (security_issues nodes) <->
  exists l l' id ctx args,
    In (Call l (Name l' id ctx) args) nodes /\
    py.contains ["eval"; "exec"; "open"] id = true /\
    issue = danger l id.
Proof.
  rewrite security_issues_flat_map, in_flat_map. split.
  - intros (node & Hn & Hi). apply security_step_In in Hi
      as (l & l' & id & ctx & args & -> & E & ->).
    now exists l, l', id, ctx, args.
  - intros (l & l' & id & ctx & args & Hn & E & ->).
    exists (Call l (Name l' id ctx) args). split; [assumption|].
    apply security_step_In. now exists l, l', id, ctx, args.
Qed.

Lemma security_issues_category (nodes : list AST) :
  Forall (fun issue => category issue = "security") (security_issues nodes).
Proof.
  apply Forall_forall. intros issue H.
  apply security_issues_In in H as (l & l' & id & ctx & args & _ & _ & ->).
  reflexivity.
Qed.

(** The second loop: the issues already collected do not influence it. *)
Lemma complexity_step_acc (d : Z) (acc : list CodeIssue) (node : AST) :
  complexity_step (d, acc) node
  = (fst (complexity_step (d, []) node),
     acc ++ snd (complexity_step (d, []) node)).
Proof.
  destruct node; simpl; try now rewrite app_nil_r.
  all: destruct (d + 1 >? 2); simpl; now rewrite ?app_nil_r.
Qed.

Lemma complexity_fold_acc (nodes : list AST) (d : Z) (acc : list CodeIssue) :
  fold_left complexity_step nodes (d, acc)
  = (fst (fold_left complexity_step nodes (d, [])),
     acc ++ snd (fold_left complexity_step nodes (d, []))).
Proof.
  revert d acc. induction nodes as [|node nodes IH]; intros d acc;
    cbn [fold_left].
  - now rewrite app_nil_r.
  - rewrite (complexity_step_acc d acc).
    destruct (complexity_step (d, []) node) as [d' emitted]. simpl.
    rewrite IH, (IH d' emitted). simpl. now rewrite app_assoc.
Qed.

Lemma analyze_code_two_passes (tree : AST) :
  _analyze_code tree
  = security_issues (walk tree) ++ complexity_issues (walk tree).
Proof.
  unfold _analyze_code, security_issues, complexity_issues.
  rewrite (complexity_fold_acc (walk tree) 0 (fold_left _ _ _)).
  reflexivity.
Qed.

(** The second loop after one more node. *)
Lemma complexity_snoc (visited : list AST) (node : AST) :
  fold_left complexity_step (visited ++ [node]) (0, [])
  = complexity_step
      (loop_depth_after visited, complexity_issues visited) node.
Proof.
  rewrite fold_left_app. simpl. unfold loop_depth_after, complexity_issues.
  now destruct (fold_left complexity_step visited (0, [])).
Qed.

Lemma loop_depth_after_snoc (visited : list AST) (node : AST) :
  loop_depth_after (visited ++ [node])
  = if is_loop node then loop_depth_after visited + 1
    else if is_FunctionDef node then 0
    else loop_depth_after visited.
Proof.
  unfold loop_depth_after at 1. rewrite complexity_snoc.
  destruct node; simpl; try reflexivity.
  all: destruct (_ >? 2); reflexivity.
Qed.

Lemma complexity_issues_snoc (visited : list AST) (node : AST) :
  complexity_issues (visited ++ [node])
  = complexity_issues visited ++
    (if is_loop node && (loop_depth_after (visited ++ [node]) >? 2)
     then [nested (lineno node) (loop_depth_after (visited ++ [node]))]
     else []).
Proof.
  rewrite loop_depth_after_snoc.
  unfold complexity_issues at 1. rewrite complexity_snoc.
  destruct node; simpl; try now rewrite app_nil_r.
  all: destruct (_ >? 2); simpl; now rewrite ?app_nil_r.
Qed.

Lemma complexity_issues_app (pre post : list AST) :
  exists rest, complexity_issues (pre ++ post) = complexity_issues pre ++ rest.
Proof.
  unfold complexity_issues. rewrite fold_left_app.
  destruct (fold_left complexity_step pre (0, [])) as [d acc].
  rewrite complexity_fold_acc. simpl. eauto.
Qed.

Lemma complexity_issues_emitted (pre post : list AST) (node : AST) :
  is_loop node = true ->
  loop_depth_after (pre ++ [node]) > 2 ->
  In (nested (lineno node) (loop_depth_after (pre ++ [node])))
     (complexity_issues (pre ++ node :: post)).
Proof.
  intros Hl Hd.
  replace (pre ++ node :: post) with ((pre ++ [node]) ++ post)
    by now rewrite <- app_assoc.
  destruct (complexity_issues_app (pre ++ [node]) post) as [rest ->].
  apply in_or_app. left. rewrite complexity_issues_snoc, Hl.
  apply Z.gtb_gt in Hd. rewrite Hd. simpl.
  apply in_or_app. right. now left.
Qed.

Lemma complexity_issues_In (issue : CodeIssue) (nodes : list AST) :
  In issue (complexity_issues nodes) ->
  exists pre node post,
    nodes = pre ++ node :: post /\ is_loop node = true /\
    loop_depth_after (pre ++ [node]) > 2 /\
    issue = nested (lineno node) (loop_depth_after (pre ++ [node])).
Proof.
  induction nodes as [|node nodes IH] using rev_ind; [intros []|].
  rewrite complexity_issues_snoc. intros H.
  apply in_app_or in H as [H|H].
  - destruct (IH H) as (pre & n & post & -> & Hl & Hd & ->).
    exists pre, n, (post ++ [node]). rewrite <- app_assoc. auto.
  - destruct (is_loop node) eqn:Hl; [|contradiction].
    destruct (_ >? 2) eqn:Hd; [|contradiction].
    destruct H as [<-|[]]. exists nodes, node, [].
    apply Z.gtb_gt in Hd. auto.
Qed.

Lemma complexity_issues_category (nodes : list AST) :
  Forall (fun issue => category issue = "performance")
         (complexity_issues nodes).
Proof.
  apply Forall_forall. intros issue H.
  apply complexity_issues_In in H as (pre & n & post & _ & _ & _ & ->).
  reflexivity.
Qed.

(** Only loops and function definitions move the second loop. *)
Lemma complexity_fold_filter (nodes : list AST) (state : Z * list CodeIssue) :
  fold_left complexity_step nodes state
  = fold_left complexity_step
      (filter (fun n => is_loop n || is_FunctionDef n) nodes) state.
Proof.
  revert state. induction nodes as [|node nodes IH]; intros state;
    [reflexivity|].
  simpl. destruct node; simpl; rewrite IH; try reflexivity.
  all: now destruct state.
Qed.

End Detector.

(** ** The loop of [_calculate_scores] *)

Section ScoreLoop.

Import CodeAnalyzer.

Lemma deduction_of_cases (issue : CodeIssue) :
  (severity issue = "high" /\ deduction_of issue = 5) \/
  (severity issue <> "high" /\ severity issue = "medium" /\
   deduction_of issue = 3) \/
  (severity issue <> "high" /\ severity issue <> "medium" /\
   deduction_of issue = 1).
Proof.
  unfold deduction_of.
  destruct (String.eqb_spec (severity issue) "high") as [H|H]; [now left|].
  destruct (String.eqb_spec (severity issue) "medium"); right; [left|right];
    auto.
Qed.

Lemma deduction_of_bounds (issue : CodeIssue) : 1 <= deduction_of issue <= 5.
Proof.
  destruct (deduction_of_cases issue) as [[_ ->]|[(_ & _ & ->)|(_ & _ & ->)]];
    lia.
Qed.

Lemma sum_deductions_nonneg (issues : list CodeIssue) :
  0 <= sumZ (map deduction_of issues).
Proof.
  induction issues as [|issue issues IH]; simpl; [lia|].
  pose proof (deduction_of_bounds issue). lia.
Qed.

Lemma category_exclusive (issue : CodeIssue) :
  in_category "security" issue = true ->
  in_category "performance" issue = false.
Proof.
  unfold in_category. intros H. apply String.eqb_eq in H. now rewrite H.
Qed.

(** The loop is a sum: after it, each entry has lost the deductions of the
    issues that count for it. *)
Lemma score_fold (issues : list CodeIssue) (scores : Scores) :
  fold_left score_step issues scores
  = mkScores
      (overall scores - sumZ (map deduction_of issues))
      (security scores
       - sumZ (map deduction_of (filter (in_category "security") issues)))
      (maintainability scores)
      (performance scores
       - sumZ (map deduction_of (filter (in_category "performance") issues))).
Proof.
  revert scores. induction issues as [|issue issues IH]; intros scores.
  - simpl. destruct scores; simpl. f_equal; lia.
  - cbn [fold_left]. rewrite IH. unfold score_step. cbn [filter map].
    fold (in_category "security" issue).
    fold (in_category "performance" issue).
    destruct (in_category "security" issue) eqn:Hs.
    + rewrite (category_exclusive issue Hs). simpl. f_equal; lia.
    + destruct (in_category "performance" issue); simpl; f_equal; lia.
Qed.

Lemma score_step_comm (scores : Scores) (a b : CodeIssue) :
  score_step (score_step scores a) b = score_step (score_step scores b) a.
Proof.
  unfold score_step.
  destruct (category a =? "security")%string,
           (category a =? "performance")%string,
           (category b =? "security")%string,
           (category b =? "performance")%string; simpl; f_equal; lia.
Qed.

Lemma score_fold_permutation (l1 l2 : list CodeIssue) :
  Permutation l1 l2 ->
  forall scores, fold_left score_step l1 scores = fold_left score_step l2 scores.
Proof.
  induction 1 as [|x l1 l2 _ IH|x y l|l1 l2 l3 _ IH1 _ IH2]; intros scores.
  - reflexivity.
  - simpl. apply IH.
  - simpl. now rewrite score_step_comm.
  - now rewrite IH1.
Qed.

(** The four entries [_calculate_scores] returns, in closed form. *)
Lemma calculate_scores_closed (issues : list CodeIssue)
    (metrics : ComplexityMetrics) :
  let over := cyclomatic_complexity metrics >? 10 in
  _calculate_scores issues metrics
  = mkScores
      (Z.max 0 (100 - sumZ (map deduction_of issues)
                - (if over then 5 else 0)))
      (Z.max 0 (100 - sumZ (map deduction_of
                              (filter (in_category "security") issues))))
      (Z.max 0 (100 - (if over then 10 else 0)))
      (Z.max 0 (100 - sumZ (map deduction_of
                              (filter (in_category "performance") issues)))).
Proof.
  unfold _calculate_scores. rewrite score_fold.
  cbn [overall security maintainability performance].
  destruct (cyclomatic_complexity metrics >? 10); unfold clamp;
    cbn [overall security maintainability performance]; f_equal; lia.
Qed.

Lemma calculate_scores_range (issues : list CodeIssue)
    (metrics : ComplexityMetrics) :
  let scores := _calculate_scores issues metrics in
  0 <= overall scores <= 100 /\ 0 <= security scores <= 100 /\
  0 <= maintainability scores <= 100 /\ 0 <= performance scores <= 100.
Proof.
  rewrite calculate_scores_closed.
  cbn [overall security maintainability performance].
  pose proof (sum_deductions_nonneg issues).
  pose proof (sum_deductions_nonneg (filter (in_category "security") issues)).
  pose proof (sum_deductions_nonneg
                (filter (in_category "performance") issues)).
  destruct (cyclomatic_complexity metrics >? 10); lia.
Qed.

End ScoreLoop.

(** ** The line counts of [_calculate_metrics] *)

Section Metrics.

Import CodeAnalyzer.

Lemma filter_length_le {A : Type} (p q : A -> bool) (l : list A) :
  (forall x, p x = true -> q x = true) ->
  (List.length (filter p l) <= List.length (filter q l))%nat.
Proof.
  intros Hpq. induction l as [|x l IH]; simpl; [lia|].
  destruct (p x) eqn:Hp.
  - rewrite (Hpq x Hp). simpl. lia.
  - destruct (q x); simpl; lia.
Qed.

Lemma filter_length_zero {A : Type} (p : A -> bool) (l : list A) :
  List.length (filter p l) = 0%nat <-> Forall (fun x => p x = false) l.
Proof.
  induction l as [|x l IH]; simpl.
  - split; auto.
  - destruct (p x) eqn:Hp; simpl.
    + split; [discriminate|]. intros H. inversion H. congruence.
    + rewrite IH. split; [now constructor|]. intros H. now inversion H.
Qed.

(** A line whose stripped content starts with [#] is not blank. *)
Lemma comment_line_not_blank (line : string) :
  py.startswith (py.strip line) "#" = true ->
  py.truthy (py.strip line) = true.
Proof. unfold py.startswith. now destruct (py.strip line). Qed.

Lemma truediv_zero (a b : Z) :
  0 < b -> (inject_Z a / inject_Z b == 0)%Q <-> a = 0.
Proof.
  intros Hb. destruct b as [|b|b]; try lia.
  unfold Qeq, Qdiv, Qmult, Qinv, inject_Z. simpl. lia.
Qed.

(** [_calculate_metrics] always returns, with these five values. *)
Lemma calculate_metrics_returns (tree : ast.AST) (code : string) :
  let lines := py.split "010" code in
  let loc := py.len (filter (fun line => py.truthy (py.strip line)) lines) in
  let comment_lines :=
    py.len (filter (fun line => py.startswith (py.strip line) "#") lines) in
  _calculate_metrics tree code
  = Ok (mkComplexityMetrics
          (fold_left count_complexity (ast.walk tree) 1)
          loc
          (if loc >? 0 then inject_Z comment_lines / inject_Z loc else 0)%Q
          (py.len (filter ast.is_FunctionDef (ast.walk tree)))
          (py.len (filter ast.is_ClassDef (ast.walk tree)))).
Proof.
  intros lines loc comment_lines. unfold _calculate_metrics.
  fold lines. fold loc. fold comment_lines.
  destruct (loc >? 0) eqn:Hloc; [|reflexivity].
  unfold py.truediv. apply Z.gtb_gt in Hloc.
  destruct (Z.eqb_spec loc 0); [lia | reflexivity].
Qed.

End Metrics.

(** ** Order of the issues *)

Section Order.

Import ast CodeAnalyzer.

Lemma subseq_refl {A : Type} (l : list A) : subseq l l.
Proof. induction l; constructor; assumption. Qed.

Lemma subseq_app {A : Type} (l1 l2 l3 l4 : list A) :
  subseq l1 l2 -> subseq l3 l4 -> subseq (l1 ++ l3) (l2 ++ l4).
Proof.
  induction 1; intros H34; simpl;
    [assumption | apply subseq_skip | apply subseq_keep]; auto.
Qed.

Lemma subseq_nil_l {A : Type} (l : list A) : subseq [] l.
Proof. induction l; constructor; assumption. Qed.

Lemma subseq_Forall {A : Type} (P : A -> Prop) (l1 l2 : list A) :
  subseq l1 l2 -> Forall P l2 -> Forall P l1.
Proof.
  induction 1; intros H2; auto.
  - inversion H2; auto.
  - inversion H2; subst. constructor; auto.
Qed.

Lemma subseq_StronglySorted {A : Type} (R : A -> A -> Prop) (l1 l2 : list A) :
  subseq l1 l2 -> StronglySorted R l2 -> StronglySorted R l1.
Proof.
  induction 1; intros H2; auto.
  - inversion H2; auto.
  - inversion H2; subst. constructor; auto.
    eapply subseq_Forall; eassumption.
Qed.

Lemma subseq_Sorted_le (l1 l2 : list Z) :
  subseq l1 l2 -> Sorted Z.le l2 -> Sorted Z.le l1.
Proof.
  intros Hsub H2. apply StronglySorted_Sorted.
  apply (subseq_StronglySorted Z.le l1 l2 Hsub).
  apply Sorted_StronglySorted; [|assumption].
  intros x y z. apply Z.le_trans.
Qed.

Lemma nondecreasing_Sorted (l : list Z) :
  nondecreasing l = true <-> Sorted Z.le l.
Proof.
  induction l as [|a l IH]; [split; [constructor | reflexivity]|].
  destruct l as [|b l].
  - split; [repeat constructor | reflexivity].
  - change (nondecreasing (a :: b :: l))
      with ((a <=? b) && nondecreasing (b :: l)).
    rewrite andb_true_iff, IH, Z.leb_le. split.
    + intros [Hab Hs]. constructor; [assumption | now constructor].
    + intros H. inversion H as [|? ? Hs Hhd]; subst.
      inversion Hhd; subst. auto.
Qed.

(** The lines met by the two loops, in the order [ast.walk] yields them. *)
Lemma security_lines_subseq (nodes : list AST) :
  subseq (map line_number (security_issues nodes))
         (map lineno (filter is_reportable nodes)).
Proof.
  rewrite security_issues_flat_map.
  induction nodes as [|node nodes IH]; [constructor|].
  cbn [flat_map filter]. rewrite map_app, security_step_dangerous.
  destruct node as [l func args| | | | | | | | |]; try exact IH;
    cbn [is_reportable map]; try (now constructor).
  destruct (is_dangerous_call (Call l func args)) eqn:Hd;
    [|now constructor].
  destruct func; try discriminate Hd. now constructor.
Qed.

Lemma complexity_lines_subseq (nodes : list AST) :
  subseq (map line_number (complexity_issues nodes))
         (map lineno (filter is_reportable nodes)).
Proof.
  induction nodes as [|node nodes IH] using rev_ind; [constructor|].
  rewrite complexity_issues_snoc, filter_app, !map_app.
  apply subseq_app; [assumption|].
  destruct node; cbn [is_loop andb filter is_reportable map];
    try apply subseq_nil_l.
  all: destruct (_ >? 2); [apply subseq_refl | apply subseq_nil_l].
Qed.

Lemma filter_keeps_all {A : Type} (p : A -> bool) (l : list A) :
  Forall (fun x => p x = true) l -> filter p l = l.
Proof.
  induction 1 as [|x l Hx _ IH]; [reflexivity|].
  simpl. now rewrite Hx, IH.
Qed.

Lemma filter_keeps_none {A : Type} (p : A -> bool) (l : list A) :
  Forall (fun x => p x = false) l -> filter p l = [].
Proof.
  induction 1 as [|x l Hx _ IH]; [reflexivity|].
  simpl. now rewrite Hx, IH.
Qed.

Lemma filter_security (tree : AST) :
  filter (in_category "security") (_analyze_code tree)
  = security_issues (walk tree).
Proof.
  rewrite analyze_code_two_passes, filter_app.
  rewrite filter_keeps_all, filter_keeps_none; [apply app_nil_r| |].
  - eapply Forall_impl; [|apply complexity_issues_category].
    intros issue H. unfold in_category. now rewrite H.
  - eapply Forall_impl; [|apply security_issues_category].
    intros issue H. unfold in_category. now rewrite H.
Qed.

Lemma filter_performance (tree : AST) :
  filter (in_category "performance") (_analyze_code tree)
  = complexity_issues (walk tree).
Proof.
  rewrite analyze_code_two_passes, filter_app.
  rewrite filter_keeps_none, filter_keeps_all; [reflexivity| |].
  - eapply Forall_impl; [|apply complexity_issues_category].
    intros issue H. unfold in_category. now rewrite H.
  - eapply Forall_impl; [|apply security_issues_category].
    intros issue H. unfold in_category. now rewrite H.
Qed.

Lemma contains_In (l : list string) (x : string) :
  py.contains l x = true <-> In x l.
Proof.
  unfold py.contains. rewrite existsb_exists. split.
  - intros (y & Hy & E). apply String.eqb_eq in E. now subst.
  - intros H. exists x. split; [assumption | apply String.eqb_refl].
Qed.

(** One issue per dangerous call. *)
Lemma security_issues_filter (nodes : list AST) :
  security_issues nodes
  = flat_map (security_step []) (filter is_dangerous_call nodes).
Proof.
  rewrite security_issues_flat_map.
  induction nodes as [|node nodes IH]; [reflexivity|].
  cbn [flat_map filter]. rewrite IH, security_step_dangerous.
  destruct (is_dangerous_call node) eqn:Hd; [|reflexivity].
  cbn [flat_map]. now rewrite security_step_dangerous, Hd.
Qed.

Lemma security_issues_length (nodes : list AST) :
  List.length (security_issues nodes)
  = List.length (filter is_dangerous_call nodes).
Proof.
  rewrite security_issues_flat_map.
  induction nodes as [|node nodes IH]; [reflexivity|].
  cbn [flat_map filter]. rewrite length_app, IH, security_step_dangerous.
  destruct (is_dangerous_call node) eqn:Hd; [|reflexivity].
  destruct node as [l func args| | | | | | | | |]; try discriminate Hd.
  destruct func; try discriminate Hd. reflexivity.
Qed.

End Order.

(** ** The lines of each group, in traversal order *)

Section GroupLines.

Import ast CodeAnalyzer.

(** The dangerous-call issues list the lines of the dangerous calls, one for
    one, in the order [ast.walk] yields the calls. *)
Lemma security_lines_exact (nodes : list AST) :
  map line_number (security_issues nodes)
  = map lineno (filter is_dangerous_call nodes).
Proof.
  rewrite security_issues_flat_map.
  induction nodes as [|node nodes IH]; [reflexivity|].
  cbn [flat_map filter]. rewrite map_app, IH, security_step_dangerous.
  destruct (is_dangerous_call node) eqn:Hd; [|reflexivity].
  destruct node as [l func args| | | | | | | | |]; try discriminate Hd.
  destruct func; try discriminate Hd. reflexivity.
Qed.

Lemma complexity_lines_subseq_loops (nodes : list AST) :
  subseq (map line_number (complexity_issues nodes))
         (map lineno (filter is_loop nodes)).
Proof.
  induction nodes as [|node nodes IH] using rev_ind; [constructor|].
  rewrite complexity_issues_snoc, filter_app, !map_app.
  apply subseq_app; [assumption|].
  destruct (is_loop node) eqn:Hloop; cbn [andb filter].
  - rewrite Hloop. destruct (_ >? 2); [apply subseq_refl | apply subseq_nil_l].
  - rewrite Hloop. constructor.
Qed.

End GroupLines.

(** * The claims *)

Section Claims.

Import CodeAnalyzer.

Variable ast_parse : string -> result ast.AST.
Variable capitalize : string -> string.

(** The report of a text that parses: the one place where the [try] body is
    unfolded. *)
Lemma analyze_code_parsed (code language file_path : string) (tree : ast.AST) :
  ast_parse code = Ok tree ->
  exists metrics,
    _calculate_metrics tree code = Ok metrics /\
    analyze_code ast_parse capitalize code language file_path
    = let issues := _analyze_code tree in
      let scores := _calculate_scores issues metrics in
      mkAnalysisReport (overall scores) (security scores)
        (maintainability scores) (performance scores)
        metrics issues (_generate_suggestions capitalize issues).
Proof.
  intros Hparse. eexists. split; [apply calculate_metrics_returns|].
  unfold analyze_code. rewrite Hparse. cbn [bind].
  now rewrite calculate_metrics_returns.
Qed.

Lemma analyze_code_failed (code language file_path cause : string) :
  ast_parse code = Raise cause ->
  analyze_code ast_parse capitalize code language file_path
  = _error_report cause.
Proof. intros Hparse. unfold analyze_code. now rewrite Hparse. Qed.


(** C2. When [ast.parse] raises on the text, [analyze_code] still returns:
    the report has the four scores at 0, metrics all 0, the single issue
    (high, line 0, "Analysis error: <cause>", general) and the single
    suggestion "Check your input code". *)
Theorem parse_failure_yields_error_report
    (code language file_path cause : string) :
  ast_parse code = Raise cause ->
  analyze_code ast_parse capitalize code language file_path
  = mkAnalysisReport 0 0 0 0
      (mkComplexityMetrics 0 0 0%Q 0 0)
      [mkCodeIssue "high" 0 ("Analysis error: " ++ cause)%string "general"]
      ["Check your input code"].
Proof. intros Hparse. now rewrite (analyze_code_failed _ _ _ _ Hparse). Qed.

(** C10. The language tag and the file path take no part in the analysis:
    two calls on the same text return the same report whatever these two
    arguments are. *)
Theorem report_depends_on_text_only
    (code language1 file_path1 language2 file_path2 : string) :
  analyze_code ast_parse capitalize code language1 file_path1
  = analyze_code ast_parse capitalize code language2 file_path2.
Proof. reflexivity. Qed.

(** C6. [_calculate_scores] deducts per issue by severity: 5 for high, 3
    for medium, 1 for any other severity. Every deduction comes off
    [overall]; it also comes off [security] exactly for the issues of
    category security and off [performance] exactly for those of category
    performance. A complexity above 10 costs [maintainability] 10 and
    [overall] 5, once. So with a complexity above 10 and no issue the
    scores are overall 95, security 100, maintainability 90,
    performance 100. *)
Theorem score_calculator_deductions
    (issues : list CodeIssue) (metrics : ComplexityMetrics) :
  let scores := _calculate_scores issues metrics in
  let over := cyclomatic_complexity metrics >? 10 in
  (forall issue,
      (severity issue = "high" -> deduction_of issue = 5) /\
      (severity issue = "medium" -> deduction_of issue = 3) /\
      (severity issue <> "high" -> severity issue <> "medium" ->
       deduction_of issue = 1)) /\
  overall scores
  = Z.max 0 (100 - sumZ (map deduction_of issues) - (if over then 5 else 0)) /\
  security scores
  = Z.max 0 (100 - sumZ (map deduction_of
                           (filter (in_category "security") issues))) /\
  performance scores
  = Z.max 0 (100 - sumZ (map deduction_of
                           (filter (in_category "performance") issues))) /\
  maintainability scores = (if over then 90 else 100) /\
  (cyclomatic_complexity metrics > 10 ->
   _calculate_scores [] metrics = mkScores 95 100 90 100).
Proof.
  cbv zeta. rewrite calculate_scores_closed. cbv zeta.
  cbn [overall security maintainability performance].
  split; [|repeat split].
  - intros issue.
    destruct (deduction_of_cases issue)
      as [[H ->]|[(H1 & H2 & ->)|(H1 & H2 & ->)]];
      repeat split; intros; congruence.
  - now destruct (cyclomatic_complexity metrics >? 10).
  - intros Hover. rewrite calculate_scores_closed. cbv zeta.
    apply Z.gtb_gt in Hover. rewrite Hover. reflexivity.
Qed.

(** C7. For fixed metrics, reordering the issue list changes none of the
    four scores [_calculate_scores] returns. *)
Theorem scores_invariant_under_reordering
    (issues1 issues2 : list CodeIssue) (metrics : ComplexityMetrics) :
  Permutation issues1 issues2 ->
  _calculate_scores issues1 metrics = _calculate_scores issues2 metrics.
Proof.
  intros Hperm. unfold _calculate_scores.
  now rewrite (score_fold_permutation issues1 issues2 Hperm).
Qed.

(** C9, as the code has it. [_calculate_metrics] never raises: the
    division is only reached with [loc > 0]. [comment_ratio] is 0 whenever
    [lines_of_code] is 0; in general it is 0 exactly when no line's
    stripped content starts with [#], which also happens in texts that
    have lines of code. *)
Theorem comment_ratio_zero_without_comment_lines
    (tree : ast.AST) (code : string) :
  exists metrics,
    _calculate_metrics tree code = Ok metrics /\
    (lines_of_code metrics = 0 -> (comment_ratio metrics == 0)%Q) /\
    ((comment_ratio metrics == 0)%Q <->
     Forall (fun line => py.startswith (py.strip line) "#" = false)
            (py.split "010" code)).
Proof.
  eexists. split; [apply calculate_metrics_returns|].
  cbn [lines_of_code comment_ratio].
  set (lines := py.split "010" code).
  set (blank := fun line => py.truthy (py.strip line)).
  set (comment := fun line => py.startswith (py.strip line) "#").
  pose proof (filter_length_le comment blank lines comment_line_not_blank)
    as Hle.
  assert (Hzero : List.length (filter comment lines) = 0%nat <->
                  Forall (fun line => py.startswith (py.strip line) "#" = false)
                         lines)
    by apply filter_length_zero.
  unfold py.len. split.
  - intros ->. reflexivity.
  - destruct (Z.of_nat (List.length (filter blank lines)) >? 0) eqn:Hloc.
    + apply Z.gtb_gt in Hloc. rewrite truediv_zero by lia.
      rewrite <- Hzero. lia.
    + rewrite <- Hzero. rewrite Z.gtb_ltb in Hloc. apply Z.ltb_ge in Hloc.
      split; [lia | reflexivity].
Qed.

(** C4, as the code has it. [_analyze_code] runs two loops over
    [ast.walk]: the returned list is the dangerous-call issues followed by
    the nested-loop issues. Each group is in the order of the breadth-first
    traversal: the lines of the first group are the lines of the dangerous
    calls exactly as the traversal meets them, the lines of the second are
    lines of loops in the order the traversal meets them. Line numbers are
    therefore non-decreasing within each group whenever the traversal meets
    calls and loops in ascending line order. They need not be across the two
    groups, nor inside a group of a sequential program whose flagged
    constructs sit at different depths of the tree. *)
Theorem issues_ordered_within_each_rule (tree : ast.AST) :
  let found := _analyze_code tree in
  let calls := filter (in_category "security") found in
  let loops := filter (in_category "performance") found in
  let met := map ast.lineno (filter is_reportable (ast.walk tree)) in
  found = calls ++ loops /\
  map line_number calls
  = map ast.lineno (filter is_dangerous_call (ast.walk tree)) /\
  subseq (map line_number loops)
         (map ast.lineno (filter ast.is_loop (ast.walk tree))) /\
  subseq (map line_number calls) met /\
  subseq (map line_number loops) met /\
  (nondecreasing met = true ->
   Sorted Z.le (map line_number calls) /\
   Sorted Z.le (map line_number loops)).
Proof.
  cbv zeta. rewrite filter_security, filter_performance.
  pose proof (security_lines_subseq (ast.walk tree)) as Hcalls.
  pose proof (complexity_lines_subseq (ast.walk tree)) as Hloops.
  split; [apply analyze_code_two_passes|].
  split; [apply security_lines_exact|].
  split; [apply complexity_lines_subseq_loops|].
  split; [exact Hcalls|]. split; [exact Hloops|].
  intros Hmet. apply nondecreasing_Sorted in Hmet. split.
  - exact (subseq_Sorted_le _ _ Hcalls Hmet).
  - exact (subseq_Sorted_le _ _ Hloops Hmet).
Qed.

(** C5, as the code has it. The nested-loop rule keeps one counter for the
    whole traversal: it starts at 0, goes up by 1 at each [For] or [While]
    node in the order [ast.walk] yields them, and goes back to 0 at each
    [FunctionDef] node. A loop that brings the counter above 2 gets the
    issue (medium, the loop's line, "Deeply nested loops (depth <counter>)",
    performance), and the performance issues are exactly these. In
    particular, when the text holds nothing but a function with three
    nested loops - the traversal meets the function definition, then the
    three loops, and no other loop or function definition - the
    performance issues are the single one of the innermost loop, at depth
    3, and [performance_score] is 97. *)
Theorem nested_loop_rule (tree : ast.AST) :
  loop_depth_after [] = 0 /\
  (forall pre node post,
      ast.walk tree = pre ++ node :: post ->
      loop_depth_after (pre ++ [node])
      = (if ast.is_loop node then loop_depth_after pre + 1
         else if ast.is_FunctionDef node then 0
         else loop_depth_after pre) /\
      (ast.is_loop node = true ->
       loop_depth_after (pre ++ [node]) > 2 ->
       In (mkCodeIssue "medium" (ast.lineno node)
             ("Deeply nested loops (depth "
              ++ py.str (loop_depth_after (pre ++ [node])) ++ ")")%string
             "performance")
          (_analyze_code tree))) /\
  (forall issue,
      In issue (_analyze_code tree) -> category issue = "performance" ->
      exists pre node post,
        ast.walk tree = pre ++ node :: post /\
        ast.is_loop node = true /\
        loop_depth_after (pre ++ [node]) > 2 /\
        issue = mkCodeIssue "medium" (ast.lineno node)
                  ("Deeply nested loops (depth "
                   ++ py.str (loop_depth_after (pre ++ [node])) ++ ")")%string
                  "performance") /\
  (forall code language file_path def outer middle inner,
      ast_parse code = Ok tree ->
      filter (fun n => ast.is_loop n || ast.is_FunctionDef n) (ast.walk tree)
      = [def; outer; middle; inner] ->
      ast.is_FunctionDef def = true ->
      ast.is_loop outer = true -> ast.is_loop middle = true ->
      ast.is_loop inner = true ->
      let report :=
        analyze_code ast_parse capitalize code language file_path in
      filter (in_category "performance") (issues report)
      = [mkCodeIssue "medium" (ast.lineno inner)
           "Deeply nested loops (depth 3)" "performance"] /\
      performance_score report = 97).
Proof.
  split; [reflexivity|]. split; [|split].
  - intros pre node post Hwalk. split; [apply loop_depth_after_snoc|].
    intros Hloop Hdepth. rewrite analyze_code_two_passes, Hwalk.
    apply in_or_app. right.
    exact (complexity_issues_emitted pre post node Hloop Hdepth).
  - intros issue Hin Hcat. rewrite analyze_code_two_passes in Hin.
    apply in_app_or in Hin as [Hin|Hin].
    + pose proof (security_issues_category (ast.walk tree)) as Hsec.
      rewrite Forall_forall in Hsec. rewrite (Hsec issue Hin) in Hcat.
      discriminate Hcat.
    + exact (complexity_issues_In issue (ast.walk tree) Hin).
  - intros code language file_path def outer middle inner
      Hparse Hmet Hdef Houter Hmiddle Hinner report.
    assert (Hperf : complexity_issues (ast.walk tree)
                    = [mkCodeIssue "medium" (ast.lineno inner)
                         "Deeply nested loops (depth 3)" "performance"]).
    { unfold complexity_issues. rewrite complexity_fold_filter, Hmet.
      destruct def; try discriminate Hdef.
      destruct outer; try discriminate Houter;
        destruct middle; try discriminate Hmiddle;
        destruct inner; try discriminate Hinner; reflexivity. }
    destruct (analyze_code_parsed code language file_path tree Hparse)
      as (metrics & _ & Hreport).
    subst report. rewrite Hreport.
    cbn [issues performance_score]. rewrite calculate_scores_closed.
    cbn [performance]. rewrite filter_performance, Hperf.
    split; reflexivity.
Qed.

(** C8, as the code has it. For every call in the tree whose [func] is a bare [Name] with
    [id] among eval, exec, open, the dangerous-call rule emits the issue
    (high, the call's line, "Potentially dangerous function: <id>",
    security): one issue per such call, and no security issue comes from
    anything else, so a call whose [func] is an attribute access or any
    other expression is never matched. In particular, when the only
    flagged construct of a text is a bare call of eval on line 3 - no
    other such call, nothing flagged by the nested-loop rule - the issues
    are exactly that one and [security_score] is 95, whatever the
    complexity; [overall_score] is 95 when the cyclomatic complexity of the
    text is at most 10, and 90 when it is above. *)
Theorem dangerous_call_rule (tree : ast.AST) :
  (forall l l' id ctx args,
      ast.occurs_in (ast.Call l (ast.Name l' id ctx) args) tree ->
      In id ["eval"; "exec"; "open"] ->
      In (mkCodeIssue "high" l
            ("Potentially dangerous function: " ++ id)%string "security")
         (_analyze_code tree)) /\
  (forall issue,
      In issue (_analyze_code tree) -> category issue = "security" ->
      exists l l' id ctx args,
        ast.occurs_in (ast.Call l (ast.Name l' id ctx) args) tree /\
        In id ["eval"; "exec"; "open"] /\
        issue = mkCodeIssue "high" l
                  ("Potentially dangerous function: " ++ id)%string
                  "security") /\
  py.len (filter (in_category "security") (_analyze_code tree))
  = py.len (filter is_dangerous_call (ast.walk tree)) /\
  (forall collected l func args,
      (forall l' id ctx, func <> ast.Name l' id ctx) ->
      security_step collected (ast.Call l func args) = collected) /\
  (forall code language file_path l' ctx args,
      ast_parse code = Ok tree ->
      filter is_dangerous_call (ast.walk tree)
      = [ast.Call 3 (ast.Name l' "eval" ctx) args] ->
      complexity_issues (ast.walk tree) = [] ->
      let report :=
        analyze_code ast_parse capitalize code language file_path in
      issues report
      = [mkCodeIssue "high" 3 "Potentially dangerous function: eval"
           "security"] /\
      security_score report = 95 /\
      (cyclomatic_complexity (complexity_metrics report) <= 10 ->
       overall_score report = 95) /\
      (cyclomatic_complexity (complexity_metrics report) > 10 ->
       overall_score report = 90)).
Proof.
  split; [|split; [|split; [|split]]].
  - intros l l' id ctx args Hocc Hid.
    rewrite analyze_code_two_passes. apply in_or_app. left.
    apply security_issues_In. exists l, l', id, ctx, args.
    repeat split; [now apply walk_In | now apply contains_In].
  - intros issue Hin Hcat. rewrite analyze_code_two_passes in Hin.
    apply in_app_or in Hin as [Hin|Hin].
    + apply security_issues_In in Hin
        as (l & l' & id & ctx & args & Hnode & Hid & ->).
      exists l, l', id, ctx, args.
      repeat split; [now apply walk_In | now apply contains_In].
    + pose proof (complexity_issues_category (ast.walk tree)) as Hperf.
      rewrite Forall_forall in Hperf. rewrite (Hperf issue Hin) in Hcat.
      discriminate Hcat.
  - rewrite filter_security. unfold py.len.
    now rewrite security_issues_length.
  - intros collected l func args Hfunc.
    destruct func as [|l' id ctx| | | | | | | |]; try reflexivity.
    now destruct (Hfunc l' id ctx).
  - intros code language file_path l' ctx args Hparse Hcalls Hloops report.
    destruct (analyze_code_parsed code language file_path tree Hparse)
      as (metrics & _ & Hreport).
    subst report. rewrite Hreport.
    cbn [issues security_score overall_score complexity_metrics].
    assert (Hissues : _analyze_code tree
                      = [mkCodeIssue "high" 3
                           "Potentially dangerous function: eval"
                           "security"]).
    { rewrite analyze_code_two_passes, Hloops, app_nil_r.
      now rewrite security_issues_filter, Hcalls. }
    rewrite calculate_scores_closed, Hissues. cbv zeta.
    cbn [overall security].
    split; [reflexivity|]. split; [reflexivity|]. split; intros Hcc.
    + replace (cyclomatic_complexity metrics >? 10) with false
        by (symmetry; rewrite Z.gtb_ltb; apply Z.ltb_ge; exact Hcc).
      reflexivity.
    + apply Z.gtb_gt in Hcc. rewrite Hcc. reflexivity.
Qed.

End Claims.

(** ** The claims on the sample texts *)

(** C3, run on the code. An agent built from a configuration file that sets
    [security_checks] and [performance_checks] to false keeps that
    configuration, yet [analyze_file] hands only the text to the analyser:
    its answer is the same under every configuration, and the call of eval
    and the nested loops are reported all the same. Without a configuration
    path the agent takes the default configuration. *)
Theorem configuration_is_never_consulted :
  (forall ast_parse capitalize read_file agent1 agent2 file_path language,
      ZV0Agent.analyze_file ast_parse capitalize read_file agent1
        file_path language
      = ZV0Agent.analyze_file ast_parse capitalize read_file agent2
          file_path language) /\
  (forall load_yaml, ZV0Agent.__init__ load_yaml None
                     = ZV0Agent.mkAgent ZV0Agent._default_config) /\
  ZV0Agent.__init__ (fun _ => Ok Samples.checks_off) (Some "config.yaml")
  = ZV0Agent.mkAgent Samples.checks_off /\
  ZV0Agent.analyze_file Samples.parse py.ascii_capitalize Samples.read_file
    (ZV0Agent.mkAgent Samples.checks_off) "eval.py" "python"
  = ZV0Agent.Success 95 1 ["Security: Potentially dangerous function: eval"] /\
  ZV0Agent.analyze_file Samples.parse py.ascii_capitalize Samples.read_file
    (ZV0Agent.mkAgent Samples.checks_off) "nest.py" "python"
  = ZV0Agent.Success 97 1 ["Performance: Deeply nested loops (depth 3)"].
Proof. repeat split. Qed.

(** C2 on the text ["def ("], which [ast.parse] rejects. *)
Lemma parse_failure_on_sample :
  Samples.parse "def (" = Raise "invalid syntax (<unknown>, line 1)" /\
  CodeAnalyzer.analyze_code Samples.parse py.ascii_capitalize
    "def (" "python" "sample.py"
  = mkAnalysisReport 0 0 0 0
      (mkComplexityMetrics 0 0 0%Q 0 0)
      [mkCodeIssue "high" 0
         "Analysis error: invalid syntax (<unknown>, line 1)" "general"]
      ["Check your input code"].
Proof.
  split; [reflexivity|].
  apply (parse_failure_yields_error_report Samples.parse py.ascii_capitalize
           "def (" "python" "sample.py" "invalid syntax (<unknown>, line 1)").
  reflexivity.
Defined.

(** C4 fails on sequential code in two ways. Across the two rules: three
    loops on lines 1 to 3 and a call of eval on line 4 are met in line
    order, yet the issue of line 4 comes before the issue of line 3. Inside
    one rule: in [f(eval(a))] on line 1 followed by [eval(b)] on line 2 the
    call of line 2 sits higher in the tree than the inner call of line 1,
    the breadth-first traversal meets it first, and the two security issues
    come out as lines 2, 1. *)
Lemma issue_lines_decrease_in_sequential_code :
  (let tree := Samples.loops_then_eval_tree in
   Samples.parse Samples.loops_then_eval_text = Ok tree /\
   map ast.lineno (filter CodeAnalyzer.is_reportable (ast.walk tree))
   = [1; 2; 3; 4] /\
   map line_number (CodeAnalyzer._analyze_code tree) = [4; 3] /\
   ~ Sorted Z.le (map line_number (CodeAnalyzer._analyze_code tree))) /\
  (let tree := MoreSamples.nested_call_tree in
   map ast.lineno (filter CodeAnalyzer.is_reportable (ast.walk tree))
   = [1; 2; 1] /\
   CodeAnalyzer._analyze_code tree
   = [mkCodeIssue "high" 2 "Potentially dangerous function: eval" "security";
      mkCodeIssue "high" 1 "Potentially dangerous function: eval" "security"] /\
   ~ Sorted Z.le (map line_number (CodeAnalyzer._analyze_code tree))).
Proof.
  split; repeat split; intros H; apply nondecreasing_Sorted in H;
    discriminate H.
Qed.

(** C4 as amended, on four loops followed by two calls: each group is in line
    order, two issues each, and the whole list is not. *)
Lemma issues_ordered_on_sample :
  let found := CodeAnalyzer._analyze_code MoreSamples.loops_then_calls_tree in
  let calls := filter (CodeAnalyzer.in_category "security") found in
  let loops := filter (CodeAnalyzer.in_category "performance") found in
  map line_number found = [5; 6; 3; 4] /\
  map line_number calls = [5; 6] /\ map line_number loops = [3; 4] /\
  Sorted Z.le (map line_number calls) /\
  Sorted Z.le (map line_number loops).
Proof.
  intros found calls loops.
  destruct (issues_ordered_within_each_rule MoreSamples.loops_then_calls_tree)
    as (_ & _ & _ & _ & _ & Hsorted).
  split; [reflexivity|]. split; [reflexivity|]. split; [reflexivity|].
  apply Hsorted. reflexivity.
Defined.

(** C5 fails once the text holds one more loop: the function with three
    nested loops is followed by a loop on line 6, the traversal meets that
    loop first, the innermost loop (line 4) reaches depth 4 and
    [performance_score] is 94. *)
Lemma extra_loop_breaks_nest_scenario :
  let report :=
    CodeAnalyzer.analyze_code Samples.parse py.ascii_capitalize
      Samples.nest_then_loop_text "python" "sample.py" in
  Samples.parse Samples.nest_then_loop_text = Ok Samples.nest_then_loop_tree /\
  ast.occurs_in Samples.nest_def Samples.nest_then_loop_tree /\
  issues report
  = [mkCodeIssue "medium" 3 "Deeply nested loops (depth 3)" "performance";
     mkCodeIssue "medium" 4 "Deeply nested loops (depth 4)" "performance"] /\
  performance_score report = 94 /\
  performance_score report <> 97.
Proof.
  repeat split; try discriminate.
  apply ast.occurs_below with Samples.nest_def; [now left | constructor].
Qed.

(** C5 as amended, on the function alone. *)
Lemma nested_loop_rule_on_sample :
  let report :=
    CodeAnalyzer.analyze_code Samples.parse py.ascii_capitalize
      Samples.nest_text "python" "sample.py" in
  filter (CodeAnalyzer.in_category "performance") (issues report)
  = [mkCodeIssue "medium" 4 "Deeply nested loops (depth 3)" "performance"] /\
  performance_score report = 97.
Proof.
  destruct (nested_loop_rule Samples.parse py.ascii_capitalize
              Samples.nest_tree) as (_ & _ & _ & Hscenario).
  apply (Hscenario Samples.nest_text "python" "sample.py" Samples.nest_def
           Samples.nest_outer Samples.nest_middle Samples.nest_inner);
    reflexivity.
Defined.

(** C6 on a complexity of 11 and no issue. *)
Lemma score_calculator_on_sample :
  CodeAnalyzer._calculate_scores [] (mkComplexityMetrics 11 20 0%Q 1 0)
  = CodeAnalyzer.mkScores 95 100 90 100.
Proof.
  destruct (score_calculator_deductions [] (mkComplexityMetrics 11 20 0%Q 1 0))
    as (_ & _ & _ & _ & _ & Hscenario).
  apply Hscenario. reflexivity.
Defined.

(** C7 on two issues swapped. *)
Lemma reordering_on_sample :
  let a := mkCodeIssue "high" 3 "Potentially dangerous function: eval"
             "security" in
  let b := mkCodeIssue "medium" 4 "Deeply nested loops (depth 3)"
             "performance" in
  let metrics := mkComplexityMetrics 4 5 0%Q 1 0 in
  Permutation [a; b] [b; a] /\
  CodeAnalyzer._calculate_scores [a; b] metrics
  = CodeAnalyzer._calculate_scores [b; a] metrics.
Proof.
  intros a b metrics. split; [apply perm_swap|].
  apply (scores_invariant_under_reordering [a; b] [b; a] metrics).
  apply perm_swap.
Defined.

(** C8 fails for the overall score once the complexity passes 10: the call
    of eval on line 3 is the only issue, [security_score] is 95, but ten
    [if] statements bring the complexity to 11 and [overall_score] to 90. *)
Lemma complexity_breaks_eval_scenario :
  let report :=
    CodeAnalyzer.analyze_code Samples.parse py.ascii_capitalize
      Samples.eval_then_ifs_text "python" "sample.py" in
  Samples.parse Samples.eval_then_ifs_text = Ok Samples.eval_then_ifs_tree /\
  issues report
  = [mkCodeIssue "high" 3 "Potentially dangerous function: eval" "security"] /\
  cyclomatic_complexity (complexity_metrics report) = 11 /\
  security_score report = 95 /\
  overall_score report = 90 /\
  overall_score report <> 95.
Proof. repeat split; discriminate. Qed.

(** C8 as amended, on the call of eval alone. *)
Lemma dangerous_call_rule_on_sample :
  let report :=
    CodeAnalyzer.analyze_code Samples.parse py.ascii_capitalize
      Samples.eval_text "python" "sample.py" in
  issues report
  = [mkCodeIssue "high" 3 "Potentially dangerous function: eval" "security"] /\
  security_score report = 95 /\ overall_score report = 95.
Proof.
  intros report.
  destruct (dangerous_call_rule Samples.parse py.ascii_capitalize
              Samples.eval_tree) as (_ & _ & _ & _ & Hscenario).
  destruct (Hscenario Samples.eval_text "python" "sample.py" 3 Samples.Load
              [ast.Name 3 "s" Samples.Load])
    as (Hissues & Hsecurity & Hoverall & _); try reflexivity.
  split; [exact Hissues|]. split; [exact Hsecurity|].
  apply Hoverall. discriminate.
Defined.

(** C9 fails from right to left: the text ["x = 1"] has one line of code and
    a [comment_ratio] of 0. *)
Lemma comment_ratio_zero_with_code :
  exists metrics,
    CodeAnalyzer._calculate_metrics Samples.assign_tree Samples.assign_text
    = Ok metrics /\
    lines_of_code metrics = 1 /\
    (comment_ratio metrics == 0)%Q /\
    ~ ((comment_ratio metrics == 0)%Q <-> lines_of_code metrics = 0).
Proof.
  eexists. split; [reflexivity|]. split; [reflexivity|].
  split; [reflexivity|]. intros [H _]. discriminate H. reflexivity.
Qed.

(** C9 as amended, on the empty text. *)
Lemma comment_ratio_on_empty_text :
  exists metrics,
    CodeAnalyzer._calculate_metrics Samples.empty_tree "" = Ok metrics /\
    lines_of_code metrics = 0 /\ (comment_ratio metrics == 0)%Q.
Proof.
  destruct (comment_ratio_zero_without_comment_lines Samples.empty_tree "")
    as (metrics & Hrun & Hzero & _).
  exists metrics. split; [exact Hrun|].
  assert (Hloc : lines_of_code metrics = 0).
  { assert (E : Ok metrics
                = Ok (mkComplexityMetrics 1 0 0%Q 0 0))
      by (rewrite <- Hrun; reflexivity).
    injection E as ->. reflexivity. }
  split; [exact Hloc | exact (Hzero Hloc)].
Defined.

(** * Further properties of the code *)

(** ** Lines and blank lines *)

Section Lines.

Lemma split_not_nil (sep : ascii) (s : string) : py.split sep s <> [].
Proof.
  destruct s as [|c rest]; simpl; [discriminate|].
  destruct (Ascii.eqb c sep); [discriminate|].
  destruct (py.split sep rest); discriminate.
Qed.

Lemma lstrip_all_space (s : string) : all_space (py.lstrip s) = all_space s.
Proof.
  induction s as [|c rest IH]; [reflexivity|].
  simpl. destruct (py.isspace c) eqn:Hc; [exact IH|].
  simpl. now rewrite Hc.
Qed.

Lemma rstrip_empty (s : string) :
  py.rstrip s = EmptyString <-> all_space s = true.
Proof.
  induction s as [|c rest IH]; [now split|].
  simpl. destruct (py.rstrip rest) as [|c' kept].
  - destruct (py.isspace c); simpl.
    + split; [intros _; now apply IH | reflexivity].
    + split; discriminate.
  - split; [discriminate|]. intros H. apply andb_true_iff in H as [_ H].
    apply IH in H. discriminate H.
Qed.

(** A line is blank for [_calculate_metrics] exactly when it is all
    whitespace. *)
Lemma strip_empty (s : string) :
  py.truthy (py.strip s) = false <-> all_space s = true.
Proof.
  unfold py.strip. rewrite <- lstrip_all_space, <- rstrip_empty.
  destruct (py.rstrip (py.lstrip s)); simpl; split; congruence.
Qed.

Lemma split_all_space (s : string) :
  Forall (fun line => all_space line = true) (py.split "010" s)
  <-> all_space s = true.
Proof.
  induction s as [|c rest IH]; [split; [reflexivity | now repeat constructor]|].
  simpl. destruct (Ascii.eqb_spec c "010") as [->|Hc].
  - simpl. rewrite <- IH. split; [intros H; now inversion H | now constructor].
  - pose proof (split_not_nil "010" rest) as Hne.
    destruct (py.split "010" rest) as [|cur more]; [contradiction|].
    rewrite andb_true_iff, <- IH. split.
    + intros H. inversion H as [|? ? Hhd Htl]; subst. simpl in Hhd.
      apply andb_true_iff in Hhd as [Hsp Hcur]. split; [assumption|].
      now constructor.
    + intros [Hsp H]. inversion H as [|? ? Hcur Htl]; subst.
      constructor; [|assumption]. simpl. now rewrite Hsp, Hcur.
Qed.

End Lines.

(** ** Counting nodes, issues and deductions *)

Section Counting.

Import ast CodeAnalyzer.

Lemma count_complexity_fold (nodes : list AST) (start : Z) :
  fold_left count_complexity nodes start
  = start + py.len (filter is_decision nodes).
Proof.
  revert start. induction nodes as [|node nodes IH]; intros start.
  - unfold py.len. simpl. lia.
  - cbn [fold_left filter]. rewrite IH. unfold count_complexity, py.len.
    destruct (is_decision node); cbn [List.length]; lia.
Qed.

Lemma len_nonneg {A : Type} (l : list A) : 0 <= py.len l.
Proof. unfold py.len. lia. Qed.

Lemma len_zero_filter {A : Type} (p : A -> bool) (l : list A) :
  py.len (filter p l) = 0 <-> Forall (fun x => p x = false) l.
Proof. rewrite <- filter_length_zero. unfold py.len. lia. Qed.

Lemma none_in_walk (p : AST -> bool) (tree : AST) :
  Forall (fun node => p node = false) (walk tree)
  <-> (forall node, occurs_in node tree -> p node = false).
Proof.
  rewrite Forall_forall. split; intros H node Hn; apply H; now apply walk_In.
Qed.

Lemma sumZ_cons (a : Z) (l : list Z) : sumZ (a :: l) = a + sumZ l.
Proof. reflexivity. Qed.

Lemma sumZ_app (l1 l2 : list Z) : sumZ (l1 ++ l2) = sumZ l1 + sumZ l2.
Proof. induction l1 as [|a l1 IH]; simpl; lia. Qed.

Lemma sum_constant_deduction (d : Z) (issues : list CodeIssue) :
  Forall (fun issue => deduction_of issue = d) issues ->
  sumZ (map deduction_of issues) = d * py.len issues.
Proof.
  unfold py.len. induction 1 as [|issue issues Hd _ IH]; [simpl; lia|].
  cbn [map sumZ fold_right List.length]. fold (sumZ (map deduction_of issues)).
  rewrite IH, Hd. lia.
Qed.

Lemma sum_deductions_filter_le (p : CodeIssue -> bool) (issues : list CodeIssue) :
  sumZ (map deduction_of (filter p issues)) <= sumZ (map deduction_of issues).
Proof.
  induction issues as [|issue issues IH]; [simpl; lia|].
  pose proof (deduction_of_bounds issue).
  cbn [filter]. destruct (p issue); simpl; fold sumZ; simpl in *; lia.
Qed.

Lemma sum_deductions_ge_len (issues : list CodeIssue) :
  py.len issues <= sumZ (map deduction_of issues).
Proof.
  unfold py.len. induction issues as [|issue issues IH]; [simpl; lia|].
  pose proof (deduction_of_bounds issue).
  cbn [map sumZ fold_right List.length]. fold (sumZ (map deduction_of issues)).
  lia.
Qed.

Lemma security_issues_deduction (nodes : list AST) :
  Forall (fun issue => deduction_of issue = 5) (security_issues nodes).
Proof.
  apply Forall_forall. intros issue H.
  apply security_issues_In in H as (l & l' & id & ctx & args & _ & _ & ->).
  reflexivity.
Qed.

Lemma complexity_issues_deduction (nodes : list AST) :
  Forall (fun issue => deduction_of issue = 3) (complexity_issues nodes).
Proof.
  apply Forall_forall. intros issue H.
  apply complexity_issues_In in H as (pre & n & post & _ & _ & _ & ->).
  reflexivity.
Qed.


End Counting.

(** ** Metrics *)

Section MetricsFacts.

Import ast CodeAnalyzer.

Lemma truediv_bounds (a b : Z) :
  0 <= a <= b -> 0 < b ->
  (0 <= inject_Z a / inject_Z b)%Q /\ (inject_Z a / inject_Z b <= 1)%Q.
Proof.
  intros Hab Hb. destruct b as [|b|b]; try lia.
  unfold Qle, Qdiv, Qmult, Qinv, inject_Z. simpl. lia.
Qed.

(** X1. [_calculate_metrics] returns metrics within their ranges for every
    tree and text: complexity at least 1, the three counts and
    [lines_of_code] non-negative, [comment_ratio] between 0 and 1. *)
Theorem metrics_within_ranges (tree : AST) (code : string) :
  exists metrics,
    _calculate_metrics tree code = Ok metrics /\
    1 <= cyclomatic_complexity metrics /\
    0 <= lines_of_code metrics /\
    0 <= function_count metrics /\
    0 <= class_count metrics /\
    (0 <= comment_ratio metrics)%Q /\ (comment_ratio metrics <= 1)%Q.
Proof.
  eexists. split; [apply calculate_metrics_returns|].
  cbn [cyclomatic_complexity lines_of_code function_count class_count
       comment_ratio].
  rewrite count_complexity_fold.
  pose proof (len_nonneg (filter is_decision (walk tree))).
  repeat split; try apply len_nonneg; try lia.
  all: set (lines := py.split "010" code);
    pose proof (filter_length_le
                  (fun line => py.startswith (py.strip line) "#")
                  (fun line => py.truthy (py.strip line))
                  lines comment_line_not_blank) as Hle;
    destruct (_ >? 0) eqn:Hloc; [|easy];
    apply Z.gtb_gt in Hloc;
    apply truediv_bounds; unfold py.len in *; lia.
Qed.

(** X2. The three tree counts of [_calculate_metrics] count nodes wherever
    they sit in the tree: complexity is 1 plus the number of If, For, While,
    And and Or nodes [ast.walk] yields, so it is 1 exactly when the tree
    holds none; [function_count] and [class_count] are 0 exactly when the
    tree holds no FunctionDef, respectively no ClassDef. *)
Theorem metrics_count_the_whole_tree (tree : AST) (code : string) :
  exists metrics,
    _calculate_metrics tree code = Ok metrics /\
    cyclomatic_complexity metrics
    = 1 + py.len (filter is_decision (walk tree)) /\
    (cyclomatic_complexity metrics = 1 <->
     forall node, occurs_in node tree -> is_decision node = false) /\
    (function_count metrics = 0 <->
     forall node, occurs_in node tree -> is_FunctionDef node = false) /\
    (class_count metrics = 0 <->
     forall node, occurs_in node tree -> is_ClassDef node = false).
Proof.
  eexists. split; [apply calculate_metrics_returns|].
  cbn [cyclomatic_complexity function_count class_count].
  rewrite count_complexity_fold, <- !none_in_walk, <- !len_zero_filter.
  repeat split; lia.
Qed.

(** X3. [lines_of_code] is 0 exactly when the text is made of whitespace
    only (the empty text included); such a text also has [comment_ratio]
    0. *)
Theorem no_line_of_code_iff_whitespace (tree : AST) (code : string) :
  exists metrics,
    _calculate_metrics tree code = Ok metrics /\
    (lines_of_code metrics = 0 <-> all_space code = true) /\
    (all_space code = true -> (comment_ratio metrics == 0)%Q).
Proof.
  eexists. split; [apply calculate_metrics_returns|].
  cbn [lines_of_code comment_ratio].
  assert (Hloc : py.len (filter (fun line => py.truthy (py.strip line))
                           (py.split "010" code)) = 0
                 <-> all_space code = true).
  { rewrite len_zero_filter, <- split_all_space. split; intros H.
    - eapply Forall_impl; [|exact H]. intros line. apply strip_empty.
    - eapply Forall_impl; [|exact H]. intros line. apply strip_empty. }
  split; [exact Hloc|].
  intros Hsp. apply Hloc in Hsp. rewrite Hsp. reflexivity.
Qed.

End MetricsFacts.

(** ** Issues *)

Section IssueFacts.

Import ast CodeAnalyzer.


(** X5. Every issue [_analyze_code] returns is either (high, security) or
    (medium, performance), and its line is the [lineno] of a Call, For or
    While node of the tree. *)
Theorem issues_point_into_the_tree (tree : AST) (issue : CodeIssue) :
  In issue (_analyze_code tree) ->
  ((severity issue = "high" /\ category issue = "security") \/
   (severity issue = "medium" /\ category issue = "performance")) /\
  exists node,
    occurs_in node tree /\ is_reportable node = true /\
    line_number issue = lineno node.
Proof.
  rewrite analyze_code_two_passes. intros H. apply in_app_or in H as [H|H].
  - apply security_issues_In in H
      as (l & l' & id & ctx & args & Hnode & _ & ->).
    split; [now left|]. exists (Call l (Name l' id ctx) args).
    repeat split. now apply walk_In.
  - apply complexity_issues_In in H as (pre & n & post & Hw & Hloop & _ & ->).
    split; [now right|]. exists n. repeat split.
    + apply walk_In. rewrite Hw. apply in_or_app. right. now left.
    + destruct n; try discriminate Hloop; reflexivity.
Qed.

End IssueFacts.

(** ** Scores *)

Section ScoreFacts.

Import CodeAnalyzer.

(** X6. One more issue, wherever it stands in the list, raises none of the
    four scores. *)
Theorem one_more_issue_raises_no_score
    (before after : list CodeIssue) (issue : CodeIssue)
    (metrics : ComplexityMetrics) :
  let fewer := _calculate_scores (before ++ after) metrics in
  let more := _calculate_scores (before ++ issue :: after) metrics in
  overall more <= overall fewer /\
  security more <= security fewer /\
  maintainability more = maintainability fewer /\
  performance more <= performance fewer.
Proof.
  cbv zeta. rewrite !calculate_scores_closed. cbv zeta.
  cbn [overall security maintainability performance].
  rewrite !filter_app, !map_app, !sumZ_app. cbn [filter].
  pose proof (deduction_of_bounds issue).
  destruct (cyclomatic_complexity metrics >? 10),
           (in_category "security" issue),
           (in_category "performance" issue);
    cbn [map]; rewrite ?sumZ_cons; repeat split; lia.
Qed.

(** X7. The overall score is never above the security score nor above the
    performance score. *)
Theorem overall_is_the_lowest_issue_score
    (issues : list CodeIssue) (metrics : ComplexityMetrics) :
  let scores := _calculate_scores issues metrics in
  overall scores <= security scores /\ overall scores <= performance scores.
Proof.
  cbv zeta. rewrite calculate_scores_closed. cbv zeta.
  cbn [overall security performance].
  pose proof (sum_deductions_filter_le (in_category "security") issues).
  pose proof (sum_deductions_filter_le (in_category "performance") issues).
  destruct (cyclomatic_complexity metrics >? 10); lia.
Qed.

(** X8. The overall score is 100 exactly when the issue list is empty and
    the complexity is at most 10; any issue, of any severity and category,
    costs at least one point. *)
Theorem overall_100_iff_nothing_to_deduct
    (issues : list CodeIssue) (metrics : ComplexityMetrics) :
  overall (_calculate_scores issues metrics) = 100
  <-> issues = [] /\ cyclomatic_complexity metrics <= 10.
Proof.
  rewrite calculate_scores_closed. cbv zeta. cbn [overall].
  pose proof (sum_deductions_ge_len issues) as Hlen.
  destruct (cyclomatic_complexity metrics >? 10) eqn:Hover.
  - apply Z.gtb_gt in Hover. pose proof (len_nonneg issues). split; lia.
  - rewrite Z.gtb_ltb in Hover. apply Z.ltb_ge in Hover. split.
    + intros H. split; [|exact Hover].
      destruct issues as [|issue rest]; [reflexivity|].
      unfold py.len in Hlen. cbn [List.length] in Hlen. lia.
    + intros [-> _]. reflexivity.
Qed.

End ScoreFacts.

(** ** Reports and the agent *)

Section ReportFacts.

Import ast CodeAnalyzer.

Variable ast_parse : string -> result AST.
Variable capitalize : string -> string.
Variable read_file : string -> result string.
Variable load_yaml : string -> result ZV0Agent.yaml.

Lemma report_lengths (code language file_path : string) :
  let report := analyze_code ast_parse capitalize code language file_path in
  List.length (suggestions report) = List.length (issues report).
Proof.
  destruct (ast_parse code) as [tree|cause] eqn:Hparse.
  - destruct (analyze_code_parsed ast_parse capitalize code language
                file_path tree Hparse) as (metrics & _ & ->).
    cbn [suggestions issues]. unfold _generate_suggestions.
    apply length_map.
  - cbv zeta. rewrite (analyze_code_failed ast_parse capitalize code language
                         file_path cause Hparse).
    reflexivity.
Qed.

Lemma report_overall_range (code language file_path : string) :
  0 <= overall_score
         (analyze_code ast_parse capitalize code language file_path) <= 100.
Proof.
  destruct (ast_parse code) as [tree|cause] eqn:Hparse.
  - destruct (analyze_code_parsed ast_parse capitalize code language
                file_path tree Hparse) as (metrics & _ & ->).
    apply calculate_scores_range.
  - rewrite (analyze_code_failed ast_parse capitalize code language
               file_path cause Hparse).
    simpl. lia.
Qed.

(** X9. Every report [analyze_code] returns, on a text that parses or not,
    has as many suggestions as issues. *)
Theorem one_suggestion_per_issue (code language file_path : string) :
  let report := analyze_code ast_parse capitalize code language file_path in
  py.len (suggestions report) = py.len (issues report).
Proof.
  cbv zeta. unfold py.len. f_equal. apply report_lengths.
Qed.

(** X10. A failed analysis can be told from a successful one by the report
    alone: [ast.parse] raised exactly when the report's
    [cyclomatic_complexity] is 0, and exactly when the report holds an issue
    of category general. *)
Theorem failure_shows_in_the_report (code language file_path : string) :
  let report := analyze_code ast_parse capitalize code language file_path in
  ((exists cause, ast_parse code = Raise cause) <->
   cyclomatic_complexity (complexity_metrics report) = 0) /\
  ((exists cause, ast_parse code = Raise cause) <->
   exists issue, In issue (issues report) /\ category issue = "general").
Proof.
  destruct (ast_parse code) as [tree|cause] eqn:Hparse.
  - destruct (analyze_code_parsed ast_parse capitalize code language
                file_path tree Hparse) as (metrics & Hm & ->).
    cbn [complexity_metrics issues].
    rewrite calculate_metrics_returns in Hm. injection Hm as <-.
    cbn [cyclomatic_complexity]. rewrite count_complexity_fold.
    pose proof (len_nonneg (filter is_decision (walk tree))).
    split; split.
    + intros [cause Hc]. discriminate Hc.
    + lia.
    + intros [cause Hc]. discriminate Hc.
    + intros (issue & Hin & Hcat). rewrite analyze_code_two_passes in Hin.
      apply in_app_or in Hin as [Hin|Hin].
      * pose proof (security_issues_category (walk tree)) as Hall.
        rewrite Forall_forall in Hall. rewrite (Hall issue Hin) in Hcat.
        discriminate Hcat.
      * pose proof (complexity_issues_category (walk tree)) as Hall.
        rewrite Forall_forall in Hall. rewrite (Hall issue Hin) in Hcat.
        discriminate Hcat.
  - cbv zeta. rewrite (analyze_code_failed ast_parse capitalize code language
                         file_path cause Hparse).
    split; split; try (intros _; now exists cause); try reflexivity.
    intros _. eexists. split; [now left | reflexivity].
Qed.

(** X11. For a text that parses, the scores of the report follow from three
    numbers: each dangerous call costs 5 on security and overall, each
    nested-loop issue 3 on performance and overall, a complexity above 10
    costs 10 on maintainability and 5 on overall, all cut off at 0. *)
Theorem report_scores_from_counts
    (code language file_path : string) (tree : AST) :
  ast_parse code = Ok tree ->
  let report := analyze_code ast_parse capitalize code language file_path in
  let calls := py.len (filter is_dangerous_call (walk tree)) in
  let loops := py.len (filter (in_category "performance") (issues report)) in
  let over := cyclomatic_complexity (complexity_metrics report) >? 10 in
  security_score report = Z.max 0 (100 - 5 * calls) /\
  performance_score report = Z.max 0 (100 - 3 * loops) /\
  maintainability_score report = (if over then 90 else 100) /\
  overall_score report
  = Z.max 0 (100 - 5 * calls - 3 * loops - (if over then 5 else 0)).
Proof.
  intros Hparse.
  destruct (analyze_code_parsed ast_parse capitalize code language
              file_path tree Hparse) as (metrics & _ & ->).
  cbn [security_score performance_score maintainability_score overall_score
       complexity_metrics issues].
  rewrite calculate_scores_closed. cbv zeta.
  cbn [overall security maintainability performance].
  rewrite filter_security, filter_performance, analyze_code_two_passes.
  rewrite map_app, sumZ_app.
  rewrite (sum_constant_deduction 5 _ (security_issues_deduction (walk tree))).
  rewrite (sum_constant_deduction 3 _
             (complexity_issues_deduction (walk tree))).
  assert (Hcalls : py.len (security_issues (walk tree))
                   = py.len (filter is_dangerous_call (walk tree)))
    by (unfold py.len; now rewrite security_issues_length).
  rewrite !Hcalls.
  destruct (cyclomatic_complexity metrics >? 10); repeat split;
    f_equal; lia.
Qed.

(** X12. [analyze_file] fails only when the file cannot be read, and then
    hands back the error text. A file that is read is always answered with
    a success, whose score is between 0 and 100 and whose issue count is
    the number of suggestions; in particular a file [ast.parse] rejects is a
    success with score 0, one issue and the suggestion "Check your input
    code". *)
Theorem analyze_file_answers
    (self : ZV0Agent.agent) (file_path language : string) :
  let answer :=
    ZV0Agent.analyze_file ast_parse capitalize read_file self
      file_path language in
  (forall e, read_file file_path = Raise e -> answer = ZV0Agent.Failure e) /\
  (forall code,
      read_file file_path = Ok code ->
      exists score count advice,
        answer = ZV0Agent.Success score count advice /\
        0 <= score <= 100 /\ count = py.len advice) /\
  (forall code cause,
      read_file file_path = Ok code -> ast_parse code = Raise cause ->
      answer = ZV0Agent.Success 0 1 ["Check your input code"]).
Proof.
  cbv zeta. unfold ZV0Agent.analyze_file. split; [|split].
  - intros e ->. reflexivity.
  - intros code ->. cbn [bind]. do 3 eexists. split; [reflexivity|].
    split; [apply report_overall_range|].
    unfold py.len. f_equal. symmetry. apply report_lengths.
  - intros code cause -> Hparse. cbn [bind].
    now rewrite (analyze_code_failed ast_parse capitalize code language
                   file_path cause Hparse).
Qed.

(** X13. [_load_config] never raises, and what it returns is either truthy
    or the empty dict: without a path, with an empty path, or when the file
    cannot be loaded it returns the default configuration; a file that loads
    to a falsy value (an empty file, for one) gives the empty dict, itself
    falsy, and not the defaults; a truthy loaded value is returned as it
    is. *)
Theorem load_config_falls_back (config_path : option string) :
  let loaded_config := ZV0Agent._load_config load_yaml config_path in
  (ZV0Agent.yaml_truthy loaded_config = true \/
   loaded_config = ZV0Agent.YDict []) /\
  (config_path = None \/ config_path = Some "" ->
   loaded_config = ZV0Agent._default_config) /\
  (forall path e,
      config_path = Some path -> load_yaml path = Raise e ->
      loaded_config = ZV0Agent._default_config) /\
  (forall path value,
      config_path = Some path -> path <> "" -> load_yaml path = Ok value ->
      loaded_config
      = if ZV0Agent.yaml_truthy value then value else ZV0Agent.YDict []).
Proof.
  cbv zeta. unfold ZV0Agent._load_config. repeat split.
  - destruct config_path as [path|]; [|now left].
    destruct (py.truthy path); [|now left]. cbn [negb].
    destruct (load_yaml path) as [value|e]; [|now left].
    destruct (ZV0Agent.yaml_truthy value) eqn:Ht; [now left | now right].
  - intros [->| ->]; reflexivity.
  - intros path e -> Hload. rewrite Hload.
    now destruct (negb (py.truthy path)).
  - intros path value -> Hpath Hload. rewrite Hload.
    destruct path; [contradiction | reflexivity].
Qed.

End ReportFacts.

(** ** The further properties on sample inputs *)

(** X3 on a text of blanks and line ends. *)
Lemma blank_text_has_no_line_of_code :
  exists metrics,
    CodeAnalyzer._calculate_metrics Samples.empty_tree MoreSamples.blank_text
    = Ok metrics /\
    lines_of_code metrics = 0 /\ (comment_ratio metrics == 0)%Q.
Proof.
  destruct (no_line_of_code_iff_whitespace Samples.empty_tree
              MoreSamples.blank_text) as (metrics & Hrun & Hloc & Hratio).
  exists metrics. split; [exact Hrun|]. split.
  - apply Hloc. reflexivity.
  - apply Hratio. reflexivity.
Defined.


(** X5 on the loop issue of three loops followed by a call of eval. *)
Lemma loop_issue_points_at_a_loop :
  let issue :=
    mkCodeIssue "medium" 3 "Deeply nested loops (depth 3)" "performance" in
  In issue (CodeAnalyzer._analyze_code Samples.loops_then_eval_tree) /\
  exists node,
    ast.occurs_in node Samples.loops_then_eval_tree /\
    CodeAnalyzer.is_reportable node = true /\
    line_number issue = ast.lineno node.
Proof.
  intros issue.
  assert (Hin : In issue
                  (CodeAnalyzer._analyze_code Samples.loops_then_eval_tree))
    by (right; left; reflexivity).
  split; [exact Hin|].
  exact (proj2 (issues_point_into_the_tree
                  Samples.loops_then_eval_tree issue Hin)).
Defined.

(** X11 on the call of eval followed by ten [if] statements: one call, no
    loop issue, complexity 11. *)
Lemma scores_from_counts_on_sample :
  let report :=
    CodeAnalyzer.analyze_code Samples.parse py.ascii_capitalize
      Samples.eval_then_ifs_text "python" "sample.py" in
  security_score report = 95 /\ performance_score report = 100 /\
  maintainability_score report = 90 /\ overall_score report = 90.
Proof.
  intros report.
  assert (Hparse : Samples.parse Samples.eval_then_ifs_text
                   = Ok Samples.eval_then_ifs_tree) by reflexivity.
  destruct (report_scores_from_counts Samples.parse py.ascii_capitalize
              Samples.eval_then_ifs_text "python" "sample.py"
              Samples.eval_then_ifs_tree Hparse) as (Hs & Hp & Hm & Ho).
  fold report in Hs, Hp, Hm, Ho.
  rewrite Hs, Hp, Hm, Ho. vm_compute. repeat split.
Defined.

(** X12 on a missing file, a readable file and a file that does not parse. *)
Lemma analyze_file_on_samples :
  let run :=
    ZV0Agent.analyze_file Samples.parse py.ascii_capitalize
      MoreSamples.read_file (ZV0Agent.mkAgent ZV0Agent._default_config) in
  run "missing.py" "python"
  = ZV0Agent.Failure "[Errno 2] No such file or directory" /\
  (exists score count advice,
      run "eval.py" "python" = ZV0Agent.Success score count advice /\
      0 <= score <= 100 /\ count = py.len advice) /\
  run "broken.py" "python" = ZV0Agent.Success 0 1 ["Check your input code"].
Proof.
  intros run. split; [|split].
  - apply (proj1 (analyze_file_answers Samples.parse py.ascii_capitalize
                    MoreSamples.read_file
                    (ZV0Agent.mkAgent ZV0Agent._default_config)
                    "missing.py" "python")).
    reflexivity.
  - apply (proj1 (proj2 (analyze_file_answers Samples.parse
                           py.ascii_capitalize MoreSamples.read_file
                           (ZV0Agent.mkAgent ZV0Agent._default_config)
                           "eval.py" "python")) Samples.eval_text).
    reflexivity.
  - apply (proj2 (proj2 (analyze_file_answers Samples.parse
                           py.ascii_capitalize MoreSamples.read_file
                           (ZV0Agent.mkAgent ZV0Agent._default_config)
                           "broken.py" "python"))
             "def (" "invalid syntax (<unknown>, line 1)");
      reflexivity.
Defined.

(** X13 on no path, an unloadable file, an empty file and a file that sets
    both checks off. *)
Lemma load_config_on_samples :
  ZV0Agent._load_config MoreSamples.load_yaml None = ZV0Agent._default_config /\
  ZV0Agent._load_config MoreSamples.load_yaml (Some "bad.yaml")
  = ZV0Agent._default_config /\
  ZV0Agent._load_config MoreSamples.load_yaml (Some "empty.yaml")
  = ZV0Agent.YDict [] /\
  ZV0Agent._load_config MoreSamples.load_yaml (Some "off.yaml")
  = Samples.checks_off.
Proof.
  split; [|split; [|split]].
  - apply (load_config_falls_back MoreSamples.load_yaml None). now left.
  - apply (proj1 (proj2 (proj2 (load_config_falls_back MoreSamples.load_yaml
                                  (Some "bad.yaml"))))
             "bad.yaml" "mapping values are not allowed here");
      reflexivity.
  - apply (proj2 (proj2 (proj2 (load_config_falls_back MoreSamples.load_yaml
                                  (Some "empty.yaml"))))
             "empty.yaml" ZV0Agent.YNone); try reflexivity. discriminate.
  - apply (proj2 (proj2 (proj2 (load_config_falls_back MoreSamples.load_yaml
                                  (Some "off.yaml"))))
             "off.yaml" Samples.checks_off); try reflexivity. discriminate.
Defined.
